(** * usbrip, [lib/core/common.py]: structured error, ordered container with
    a default factory, tiered console reporter.

    The Python code is embedded shallowly.  Methods that mutate [self] or a
    module-level object become computations of a small state-and-exception
    monad; a raised exception keeps the state reached so far, as in Python. *)

From Stdlib Require Import ZArith Ascii String DecimalString.
From stdpp Require Import gmap strings list.

Local Open Scope Z_scope.

(** ** Outcomes and the state-and-exception monad *)

(** The two exceptions raised by the container code.  [KeyError] carries the
    key that was looked up, [TypeError] its message. *)
Inductive exception (K : Type) : Type :=
| KeyError (key : K)
| TypeError (msg : string).
Arguments KeyError {K} key.
Arguments TypeError {K} msg.

Inductive outcome (E A : Type) : Type :=
| Return (a : A)
| Raise (e : E).
Arguments Return {E A} a.
Arguments Raise {E A} e.

Definition M (E S A : Type) : Type := S -> outcome E A * S.

Definition ret {E S A} (a : A) : M E S A := fun s => (Return a, s).

Definition raise {E S A} (e : E) : M E S A := fun s => (Raise e, s).

Definition bind {E S A B} (c : M E S A) (k : A -> M E S B) : M E S B :=
  fun s =>
    match c s with
    | (Return a, s') => k a s'
    | (Raise e, s') => (Raise e, s')
    end.

(** [try: c except p: h] runs the handler [h] when [c] raises an exception
    selected by [p]; the state changes made by [c] before raising stay. *)
Definition try_except {E S A} (c : M E S A) (p : E -> bool) (h : M E S A)
  : M E S A :=
  fun s =>
    match c s with
    | (Return a, s') => (Return a, s')
    | (Raise e, s') => if p e then h s' else (Raise e, s')
    end.

Definition gets {E S A} (f : S -> A) : M E S A := fun s => (Return (f s), s).

Definition modify {E S} (f : S -> S) : M E S unit := fun s => (Return tt, f s).

Declare Scope py_scope.
Delimit Scope py_scope with py.
Notation "x <- c ;; k" := (bind c (fun x => k))
  (at level 100, c at next level, right associativity) : py_scope.
Notation "c ;;; k" := (bind c (fun _ => k))
  (at level 100, right associativity) : py_scope.

(** Python's [str(n)] for an [int]. *)
Definition str_of_int (n : Z) : string := NilZero.string_of_int (Z.to_int n).

(** ** Tiered reporter: [print_info], [print_warning], [print_critical],
    [print_secret] *)

Module Reporter.

(** The flags of [lib.core.config] read by the reporter. *)
Record Config : Type := { QUIET : bool; DEBUG : bool; ISATTY : bool }.

Inductive stream : Type := stdout | stderr.

(** The process as the reporter sees it: the configuration module and the
    lines written so far, oldest first, each with the stream it went to.
    One entry is one call of [print], whose newline is left implicit. *)
Record process : Type := { cfg : Config; console : list (stream * string) }.

Section Messages.

(** No exception is raised in this part of the file, so the exception type
    is left open. *)
Context {E : Type}.

(** [termcolor.colored(text, color, on_color, attrs)], a third-party
    function: taken as given. *)
Variable colored : string -> option string -> option string -> list string -> string.

Local Open Scope py_scope.

(** [print(text, file=out)] *)
Definition print (text : string) (out : stream) : M E process unit :=
  modify (fun p => {| cfg := cfg p; console := console p ++ [(out, text)] |}).

(** [termcolor.cprint] prints the coloured text on the standard output. *)
Definition cprint (text : string) (color on_color : option string)
    (attrs : list string) : M E process unit :=
  print (colored text color on_color attrs) stdout.

Definition print_info (message : string) : M E process unit :=
  quiet <- gets (fun p => QUIET (cfg p));;
  if quiet : bool then ret tt else
  isatty <- gets (fun p => ISATTY (cfg p));;
  if isatty : bool
  then cprint ("[INFO] " +:+ message) (Some "green") None []
  else print ("[INFO] " +:+ message) stdout.

(** The block shared, textually, by [print_warning] and [print_critical]:
<<
	if cfg.DEBUG:
		if errcode:
			print('ERRCODE: {}'.format(errcode))
		if initial_error:
			print(initial_error, file=sys.stderr)
>> *)
Definition debug_details (errcode : Z) (initial_error : string)
  : M E process unit :=
  debug <- gets (fun p => DEBUG (cfg p));;
  if debug : bool then
    (if bool_decide (errcode = 0) then ret tt
     else print ("ERRCODE: " +:+ str_of_int errcode) stdout);;;
    (if bool_decide (initial_error = "") then ret tt
     else print initial_error stderr)
  else ret tt.

Definition print_warning (message : string) (errcode : Z)
    (initial_error : string) : M E process unit :=
  quiet <- gets (fun p => QUIET (cfg p));;
  if quiet : bool then ret tt else
  debug_details errcode initial_error;;;
  isatty <- gets (fun p => ISATTY (cfg p));;
  if isatty : bool
  then cprint ("[WARNING] " +:+ message) (Some "yellow") None []
  else print ("[WARNING] " +:+ message) stdout.

Definition print_critical (message : string) (errcode : Z)
    (initial_error : string) : M E process unit :=
  debug_details errcode initial_error;;;
  isatty <- gets (fun p => ISATTY (cfg p));;
  if isatty : bool
  then cprint ("[CRITICAL] " +:+ message) (Some "white") (Some "on_red") ["bold"]
  else print ("[CRITICAL] " +:+ message) stdout.

Definition print_secret (message secret : string) : M E process unit :=
  isatty <- gets (fun p => ISATTY (cfg p));;
  if isatty : bool
  then cprint ("[SECRET] " +:+ colored message (Some "white") None ["bold"]
               +:+ " " +:+ colored secret (Some "white") (Some "on_grey") ["bold"])
              (Some "white") None ["bold"]
  else print ("[SECRET] " +:+ message +:+ " " +:+ secret) stdout.

(** The text of the main line of each tier. *)
Definition styled (isatty : bool) (tag message : string)
    (color on_color : option string) (attrs : list string) : string :=
  if isatty then colored (tag +:+ message) color on_color attrs
  else tag +:+ message.

(** The detail lines written in debug mode, in the order they are written. *)
Definition detail_lines (errcode : Z) (initial_error : string)
  : list (stream * string) :=
  (if bool_decide (errcode = 0) then []
   else [(stdout, "ERRCODE: " +:+ str_of_int errcode)])
  ++ (if bool_decide (initial_error = "") then [] else [(stderr, initial_error)]).

End Messages.

(** A rendering of [termcolor.colored] by ANSI escape sequences restricted to
    the colours and attributes used in this file, for closed examples. *)
Definition esc : string := String (ascii_of_nat 27) "[".

Definition color_code (name : string) : string :=
  if bool_decide (name = "green") then "32"
  else if bool_decide (name = "yellow") then "33"
  else "37".

Definition highlight_code (name : string) : string :=
  if bool_decide (name = "on_red") then "41" else "40".

Definition ansi_colored (text : string) (color on_color : option string)
    (attrs : list string) : string :=
  let t1 := match color with
            | Some c => esc +:+ color_code c +:+ "m" +:+ text
            | None => text
            end in
  let t2 := match on_color with
            | Some c => esc +:+ highlight_code c +:+ "m" +:+ t1
            | None => t1
            end in
  fold_left (fun t _ => esc +:+ "1m" +:+ t) attrs t2 +:+ esc +:+ "0m".

(** Processes for closed examples: nothing written yet, no terminal. *)
Definition debug_process : process :=
  {| cfg := {| QUIET := false; DEBUG := true; ISATTY := false |};
     console := [] |}.

Definition quiet_debug_process : process :=
  {| cfg := {| QUIET := true; DEBUG := true; ISATTY := false |};
     console := [] |}.

End Reporter.

(** ** Structured error: [USBRipError] *)

Module USBRipError.

(** The values kept in the [errors] mapping: error codes are integers, the
    initial error is text. *)
Inductive value : Type :=
| VInt (n : Z)
| VStr (s : string).

(** An instance: the message handed to [Exception.__init__] and the
    attribute [errors]. *)
Record USBRipError : Type := { message : string; errors : gmap string value }.

(** [dict.setdefault(key, default)], as far as the mapping is concerned. *)
Definition setdefault (key : string) (default : value)
    (d : gmap string value) : gmap string value :=
  match d !! key with
  | Some _ => d
  | None => <[key := default]> d
  end.

(** [not errors]: the argument is [None] or an empty mapping. *)
Definition falsy (errors : option (gmap string value)) : bool :=
  match errors with
  | None => true
  | Some d => bool_decide (d = ∅)
  end.

(** [USBRipError(message, errors=errors)] *)
Definition __init__ (message : string) (errors : option (gmap string value))
  : USBRipError :=
  let errors := if falsy errors then ∅ else default ∅ errors in
  {| message := message;
     errors := setdefault "initial_error" (VStr "")
                 (setdefault "errcode" (VInt 0) errors) |}.

End USBRipError.

(** ** Ordered container with a default factory: [DefaultOrderedDict] *)

Module Container.

Section Dict.

(** Keys, values and the part of the program state a factory may read and
    change (a counter of allocated objects, say).  A factory is a callable
    without arguments: it returns a value and the new state. *)
Context {K V W : Type} `{EqDecision K}.

Definition factory : Type := W -> V * W.

(** The objects that reach the constructor of the class in this file. *)
Inductive pyobj : Type :=
| PyNone                              (* None *)
| PyCallable (f : factory)            (* a function, a lambda, a class as [list] *)
| PyMapping (pairs : list (K * V))    (* a mapping or an iterable of pairs *)
| PyAtom (n : Z).                     (* an [int]: neither callable nor iterable *)

(** [isinstance(o, Callable)] *)
Definition callable (o : pyobj) : bool :=
  match o with PyCallable _ => true | _ => false end.

(** [o is None] *)
Definition is_none (o : pyobj) : bool :=
  match o with PyNone => true | _ => false end.

(** An instance: the pairs of the underlying [OrderedDict], oldest key
    first, and the attribute [_default_factory]. *)
Record DefaultOrderedDict : Type :=
  { items : list (K * V); _default_factory : pyobj }.

(** What [iter(d)] yields. *)
Definition keys (d : DefaultOrderedDict) : list K := (items d).*1.

(** *** The inherited [OrderedDict] *)

Fixpoint od_lookup (key : K) (l : list (K * V)) : option V :=
  match l with
  | [] => None
  | (k, v) :: l' => if decide (k = key) then Some v else od_lookup key l'
  end.

(** [OrderedDict.__setitem__]: a known key keeps its place, a new one goes
    to the end. *)
Fixpoint od_setitem (key : K) (value : V) (l : list (K * V)) : list (K * V) :=
  match l with
  | [] => [(key, value)]
  | (k, v) :: l' =>
      if decide (k = key) then (k, value) :: l'
      else (k, v) :: od_setitem key value l'
  end.

(** [OrderedDict.__delitem__] *)
Fixpoint od_delitem (key : K) (l : list (K * V)) : option (list (K * V)) :=
  match l with
  | [] => None
  | (k, v) :: l' =>
      if decide (k = key) then Some l'
      else cons (k, v) <$> od_delitem key l'
  end.

(** [for k, v in pairs: d[k] = v] *)
Definition od_update (pairs l : list (K * V)) : list (K * V) :=
  fold_left (fun acc kv => od_setitem kv.1 kv.2 acc) pairs l.

(** [OrderedDict.__init__] with positional arguments [args] and keyword
    arguments [kwargs], on a new, empty [self]:
    at most one positional argument, which must be iterable; it is read
    first, the keyword arguments after it. *)
Definition OrderedDict__init__ (args : list pyobj) (kwargs : list (K * V))
  : outcome (exception K) (list (K * V)) :=
  match args with
  | [] => Return (od_update kwargs [])
  | [PyMapping pairs] => Return (od_update kwargs (od_update pairs []))
  | [_] => Raise (TypeError "object is not iterable")
  | _ => Raise (TypeError ("expected at most 1 arguments, got "
                           +:+ str_of_int (Z.of_nat (length args))))
  end.

(** *** The class itself *)

(** The constructor call, with positional arguments [args], the keyword
    argument [default_factory] and further keyword arguments [kwargs].
    The parameter [default_factory] comes after [*args]: it can only be
    given by keyword, and every positional argument lands in [args]. *)
Definition __init__ (args : list pyobj) (default_factory : pyobj)
    (kwargs : list (K * V)) : outcome (exception K) DefaultOrderedDict :=
  if negb (is_none default_factory) && negb (callable default_factory)
  then Raise (TypeError "first argument must be callable")
  else match OrderedDict__init__ args kwargs with
       | Return l => Return {| items := l; _default_factory := default_factory |}
       | Raise e => Raise e
       end.

(** The state a method runs in: the object [self] and the state factories
    work on. *)
Record state : Type := { self : DefaultOrderedDict; world : W }.

Abbreviation Py A := (M (exception K) state A).

Local Open Scope py_scope.

(** [self[key] = value], inherited. *)
Definition __setitem__ (key : K) (value : V) : Py unit :=
  modify (fun s =>
    {| self := {| items := od_setitem key value (items (self s));
                  _default_factory := _default_factory (self s) |};
       world := world s |}).

(** [del self[key]], inherited. *)
Definition __delitem__ (key : K) : Py unit :=
  fun s =>
    match od_delitem key (items (self s)) with
    | Some l => (Return tt,
                 {| self := {| items := l;
                               _default_factory := _default_factory (self s) |};
                    world := world s |})
    | None => (Raise (KeyError key), s)
    end.

(** Calling the object kept in [_default_factory]. *)
Definition call (o : pyobj) : Py V :=
  match o with
  | PyCallable f =>
      fun s => let (v, w) := f (world s) in
               (Return v, {| self := self s; world := w |})
  | _ => raise (TypeError "object is not callable")
  end.

Definition __missing__ (key : K) : Py V :=
  df <- gets (fun s => _default_factory (self s));;
  if is_none df then raise (KeyError key) else
  value <- call df;;
  __setitem__ key value;;;
  ret value.

(** [OrderedDict.__getitem__(self, key)] is [dict.__getitem__]: for an
    instance of a subclass of [dict] it calls [__missing__] of the class
    when the key is not there. *)
Definition OrderedDict__getitem__ (key : K) : Py V :=
  l <- gets (fun s => items (self s));;
  match od_lookup key l with
  | Some v => ret v
  | None => __missing__ key
  end.

Definition is_KeyError (e : exception K) : bool :=
  match e with KeyError _ => true | TypeError _ => false end.

Definition __getitem__ (key : K) : Py V :=
  try_except (OrderedDict__getitem__ key) is_KeyError (__missing__ key).

(** The constructor called from inside a method. *)
Definition construct (args : list pyobj) (default_factory : pyobj)
    (kwargs : list (K * V)) : Py DefaultOrderedDict :=
  fun s => (__init__ args default_factory kwargs, s).

(** [type(self)(self._default_factory, self)] *)
Definition __copy__ : Py DefaultOrderedDict :=
  d <- gets self;;
  construct [_default_factory d; PyMapping (items d)] PyNone [].

Definition copy : Py DefaultOrderedDict := __copy__.

(** The value of [__reduce__]: [(type(self), args, None, None, self.items())].
    The class is fixed and the third and fourth components are [None], so
    the arguments and the pairs are kept. *)
Record reduce_value : Type :=
  { rv_args : list pyobj; rv_dictitems : list (K * V) }.

Definition __reduce__ : Py reduce_value :=
  d <- gets self;;
  let args := if is_none (_default_factory d) then []
              else [_default_factory d] in
  ret {| rv_args := args; rv_dictitems := items d |}.

(** How [pickle] and [copy] rebuild an object from such a value when its
    third and fourth components are [None]: call the class on the
    arguments, then store each pair with [obj[key] = value]. *)
Definition reconstruct (r : reduce_value)
  : outcome (exception K) DefaultOrderedDict :=
  match __init__ (rv_args r) PyNone [] with
  | Return d => Return {| items := od_update (rv_dictitems r) (items d);
                          _default_factory := _default_factory d |}
  | Raise e => Raise e
  end.

(** Serialize [self], then deserialize. *)
Definition round_trip : Py DefaultOrderedDict :=
  r <- __reduce__;;
  fun s => (reconstruct r, s).

(** *** Sequences of operations *)

Inductive op : Type :=
| Set_ (key : K) (value : V)     (* d[key] = value *)
| Get_ (key : K).                (* d[key] *)

Definition run_op (o : op) : Py unit :=
  match o with
  | Set_ key value => __setitem__ key value
  | Get_ key => __getitem__ key;;; ret tt
  end.

(** The operations one after the other; a lookup that raises is caught by
    the caller, who goes on with the next operation. *)
Definition run_ops (ops : list op) (s : state) : state :=
  fold_left (fun s o => (run_op o s).2) ops s.

(** The keys the operations store under: every assignment, and every lookup
    when a factory is there to fill in a missing key. *)
Definition stored_keys (df : pyobj) (ops : list op) : list K :=
  flat_map (fun o => match o with
                     | Set_ key _ => [key]
                     | Get_ key => if callable df then [key] else []
                     end) ops.

(** Order of first insertion: the keys of [l] not in [seen], each at its
    first occurrence. *)
Fixpoint first_insertion_order (seen l : list K) : list K :=
  match l with
  | [] => []
  | k :: l' =>
      if decide (k ∈ seen) then first_insertion_order seen l'
      else k :: first_insertion_order (k :: seen) l'
  end.

End Dict.

Arguments pyobj : clear implicits.
Arguments DefaultOrderedDict : clear implicits.
Arguments state : clear implicits.
Arguments reduce_value : clear implicits.
Arguments op : clear implicits.
Arguments factory : clear implicits.

(** Containers for closed examples, after the use the tool makes of the
    class: events per user, with [list] as the factory.  [list()] returns
    an empty list and touches nothing else. *)
Definition list_factory : factory (list string) unit := fun w => ([], w).

Definition events_per_user : DefaultOrderedDict string (list string) unit :=
  {| items := [("alice", ["login"])];
     _default_factory := PyCallable list_factory |}.

Definition events_no_factory : DefaultOrderedDict string (list string) unit :=
  {| items := [("alice", ["login"])]; _default_factory := PyNone |}.

Section DeepCopy.

Context {K V W : Type} `{EqDecision K}.

(** [copy.deepcopy] of the standard library, applied to [self.items()]: taken
    as given.  It may return any object, raise, and change the state. *)
Variable deepcopy :
  list (K * V) -> M (exception K) (state K V W) (pyobj K V W).

Local Open Scope py_scope.

(** [type(self)(self._default_factory, copy.deepcopy(self.items()))]: the
    arguments are evaluated from left to right, then the class is called. *)
Definition __deepcopy__ : M (exception K) (state K V W) (DefaultOrderedDict K V W) :=
  df <- gets (fun s => _default_factory (self s));;
  pairs <- gets (fun s => items (self s));;
  cloned <- deepcopy pairs;;
  construct [df; cloned] PyNone [].

End DeepCopy.

End Container.

(** ** Structured error, with the mapping as a shared object *)

(** [USBRipError.__init__] keeps the very mapping it is given
    ([self.errors = errors]) and fills it in place.  Here mappings live in a
    store, and [errors] is a reference into it. *)
Module ErrorStore.

Abbreviation store := (gmap positive (gmap string USBRipError.value)).

(** An instance: the message and the reference held in [self.errors]. *)
Record instance : Type := { message : string; errors : positive }.

Section Init.

Context {E : Type}.

Local Open Scope py_scope.

(** [errors = {}]: a new, empty mapping. *)
Definition new_dict : M E store positive :=
  fun h => (Return (fresh (dom h)), <[fresh (dom h) := ∅]> h).

(** [d.setdefault(key, default)] on the mapping that [l] refers to. *)
Definition setdefault (l : positive) (key : string)
    (default : USBRipError.value) : M E store unit :=
  modify (alter (USBRipError.setdefault key default) l).

(** [if not errors: errors = {}]: [None] and an empty mapping are
    replaced by a new mapping. *)
Definition or_new_dict (errors : option positive) : M E store positive :=
  match errors with
  | None => new_dict
  | Some l =>
      d <- gets (fun h => default ∅ (h !! l));;
      if bool_decide (d = ∅) then new_dict else ret l
  end.

Definition __init__ (message : string) (errors : option positive)
  : M E store instance :=
  l <- or_new_dict errors;;
  setdefault l "errcode" (USBRipError.VInt 0);;;
  setdefault l "initial_error" (USBRipError.VStr "");;;
  ret {| message := message; errors := l |}.

End Init.

End ErrorStore.

(** ** [os_makedirs] *)

Module Makedirs.

(** What [os.makedirs] raises, with the text [str(e)].  [PermissionError] is
    a subclass of [OSError]; the second constructor stands for every other
    [OSError], [FileExistsError] among them; the third for what is not an
    [OSError], as [ValueError] for a name with a null character. *)
Inductive os_error : Type :=
| PermissionError (text : string)
| OSError (text : string)
| NotOSError (text : string).

(** What [os_makedirs] raises: an error of its own, or what no [except]
    clause caught. *)
Inductive raised : Type :=
| Wrapped (e : USBRipError.USBRipError)
| Propagated (e : os_error).

Section OsMakedirs.

(** The file system and the two functions of [os] the code calls: taken as
    given. *)
Context {FS : Type}.
Variable makedirs : string -> FS -> outcome os_error unit * FS.
Variable isdir : string -> FS -> bool.

Definition os_makedirs (dirname : string) : M raised FS unit :=
  fun fs =>
    match makedirs dirname fs with
    | (Return _, fs') => (Return tt, fs')
    | (Raise (PermissionError e), fs') =>
        (Raise (Wrapped (USBRipError.__init__
                  ("Permission denied: '" +:+ dirname +:+ "'")
                  (Some {[ "initial_error" := USBRipError.VStr e ]}))), fs')
    | (Raise (OSError e), fs') =>
        if isdir dirname fs' then (Return tt, fs')
        else (Raise (Wrapped (USBRipError.__init__
                       ("Path exists and it is not a directory: '"
                        +:+ dirname +:+ "'")
                       (Some {[ "initial_error" := USBRipError.VStr e ]}))),
              fs')
    | (Raise (NotOSError e), fs') => (Raise (Propagated (NotOSError e)), fs')
    end.

End OsMakedirs.

End Makedirs.

(** ** [is_correct] *)

Module Password.

(** A [str] is the list of its code points. *)
Definition str_of (s : string) : list N :=
  N_of_ascii <$> list_ascii_of_string s.

(** The code points from [a] to [b]. *)
Definition code_points (a b : nat) : list N :=
  N.of_nat <$> seq a (S b - a).

(** The constants of the module [string]. *)
Definition digits : list N := code_points 48 57.
Definition ascii_lowercase : list N := code_points 97 122.
Definition ascii_uppercase : list N := code_points 65 90.
Definition punctuation : list N :=
  code_points 33 47 ++ code_points 58 64 ++ code_points 91 96
  ++ code_points 123 126.
Definition whitespace : list N := [32; 9; 10; 13; 11; 12]%N.
Definition printable : list N :=
  digits ++ (ascii_lowercase ++ ascii_uppercase) ++ punctuation ++ whitespace.

Section IsCorrect.

(** [str.islower], [str.isupper] and [str.isdigit] of one character follow
    the Unicode tables; beyond ASCII these are taken as given. *)
Variables unicode_islower unicode_isupper unicode_isdigit : N -> bool.

Definition islower (c : N) : bool :=
  if (c <? 128)%N then (97 <=? c)%N && (c <=? 122)%N else unicode_islower c.

Definition isupper (c : N) : bool :=
  if (c <? 128)%N then (65 <=? c)%N && (c <=? 90)%N else unicode_isupper c.

Definition isdigit (c : N) : bool :=
  if (c <? 128)%N then (48 <=? c)%N && (c <=? 57)%N else unicode_isdigit c.

Definition is_correct (password : list N) : bool :=
  if (length password <? 8)%nat
     || negb (existsb islower password)
     || negb (existsb isupper password)
     || negb (existsb isdigit password)
     || existsb (fun c => negb (bool_decide (c ∈ printable))) password
  then false
  else true.

End IsCorrect.

End Password.

(** ** [lib/utils/debug.py]: [time_it_if_debug] *)

Module Debug.

Section TimeItIfDebug.

(** Functions to decorate, and the exceptions a decorator may raise. *)
Context {F E : Type}.

Record time_it_if_debug : Type :=
  { _condition : bool;
    _decorator : F -> M E Reporter.process F }.

Local Open Scope py_scope.

(** [time_it_if_debug(condition, decorator)], for a [condition] of any
    type. *)
Definition __init__ {C : Type} (condition : C)
    (decorator : F -> M E Reporter.process F)
  : M E Reporter.process time_it_if_debug :=
  debug <- gets (fun p => Reporter.DEBUG (Reporter.cfg p));;
  ret {| _condition := debug; _decorator := decorator |}.

Definition __call__ (self : time_it_if_debug) (func : F)
  : M E Reporter.process F :=
  if negb (_condition self) then ret func
  else _decorator self func.

End TimeItIfDebug.

Arguments time_it_if_debug : clear implicits.

End Debug.

(** ** The reporters on a console that may refuse a write *)

(** [print] raises when the stream cannot be written: a closed pipe, a
    character the encoding of the stream does not have.  The four functions
    are those of [Reporter], line by line, over such a [print]; nothing in
    them catches an exception. *)
Module ReporterIO.

Import Reporter.

Section Messages.

(** The exceptions a write may raise. *)
Context {E : Type}.

Variable colored : string -> option string -> option string -> list string -> string.

(** What becomes of a write of a text to a stream, given the process as
    it is: [None] when the text is written, the exception raised
    otherwise. *)
Variable write_error : process -> stream -> string -> option E.

Local Open Scope py_scope.

(** [print(text, file=out)] *)
Definition print (text : string) (out : stream) : M E process unit :=
  fun p =>
    match write_error p out text with
    | Some e => (Raise e, p)
    | None => (Return tt,
               {| cfg := cfg p; console := console p ++ [(out, text)] |})
    end.

Definition cprint (text : string) (color on_color : option string)
    (attrs : list string) : M E process unit :=
  print (colored text color on_color attrs) stdout.

Definition print_info (message : string) : M E process unit :=
  quiet <- gets (fun p => QUIET (cfg p));;
  if quiet : bool then ret tt else
  isatty <- gets (fun p => ISATTY (cfg p));;
  if isatty : bool
  then cprint ("[INFO] " +:+ message) (Some "green") None []
  else print ("[INFO] " +:+ message) stdout.

Definition debug_details (errcode : Z) (initial_error : string)
  : M E process unit :=
  debug <- gets (fun p => DEBUG (cfg p));;
  if debug : bool then
    (if bool_decide (errcode = 0) then ret tt
     else print ("ERRCODE: " +:+ str_of_int errcode) stdout);;;
    (if bool_decide (initial_error = "") then ret tt
     else print initial_error stderr)
  else ret tt.

Definition print_warning (message : string) (errcode : Z)
    (initial_error : string) : M E process unit :=
  quiet <- gets (fun p => QUIET (cfg p));;
  if quiet : bool then ret tt else
  debug_details errcode initial_error;;;
  isatty <- gets (fun p => ISATTY (cfg p));;
  if isatty : bool
  then cprint ("[WARNING] " +:+ message) (Some "yellow") None []
  else print ("[WARNING] " +:+ message) stdout.

Definition print_critical (message : string) (errcode : Z)
    (initial_error : string) : M E process unit :=
  debug_details errcode initial_error;;;
  isatty <- gets (fun p => ISATTY (cfg p));;
  if isatty : bool
  then cprint ("[CRITICAL] " +:+ message) (Some "white") (Some "on_red") ["bold"]
  else print ("[CRITICAL] " +:+ message) stdout.

Definition print_secret (message secret : string) : M E process unit :=
  isatty <- gets (fun p => ISATTY (cfg p));;
  if isatty : bool
  then cprint ("[SECRET] " +:+ colored message (Some "white") None ["bold"]
               +:+ " " +:+ colored secret (Some "white") (Some "on_grey") ["bold"])
              (Some "white") None ["bold"]
  else print ("[SECRET] " +:+ message +:+ " " +:+ secret) stdout.

(** A computation keeps the configuration, and what it raises, if
    anything, is what a write raised. *)
Definition keeps_cfg_and_raises_from_writes {A : Type}
    (c : M E process A) : Prop :=
  forall p,
    cfg (c p).2 = cfg p
    /\ match (c p).1 with
       | Return _ => True
       | Raise e => exists p' out text, write_error p' out text = Some e
       end.

End Messages.


End ReporterIO.

(** ** Lookups with a factory that may raise *)

(** [__getitem__] and [__missing__] once more, for containers as the
    constructor leaves them (the factory is [None] or callable) and
    callables that may raise instead of returning. *)
Module RaisingFactory.

Section Dict.

(** Keys, values, the state factories work on, and what a factory may
    raise, with [isinstance(e, KeyError)] for each such exception. *)
Context {K V W X : Type} `{EqDecision K}.
Variable is_key_error : X -> bool.

(** A call returns a value or raises; the state it leaves stays in both
    cases. *)
Definition factory : Type := W -> outcome X V * W.

(** What a lookup raises: the [KeyError(key)] of [__missing__], or what the
    factory raised. *)
Inductive failure : Type :=
| Missing (key : K)
| FromFactory (x : X).

(** [except KeyError] *)
Definition is_KeyError (e : failure) : bool :=
  match e with
  | Missing _ => true
  | FromFactory x => is_key_error x
  end.

Record DefaultOrderedDict : Type :=
  { items : list (K * V); _default_factory : option factory }.

Definition keys (d : DefaultOrderedDict) : list K := (items d).*1.

Record state : Type := { self : DefaultOrderedDict; world : W }.

Local Open Scope py_scope.

Definition __setitem__ (key : K) (value : V) : M failure state unit :=
  modify (fun s =>
    {| self := {| items := Container.od_setitem key value (items (self s));
                  _default_factory := _default_factory (self s) |};
       world := world s |}).

(** [self._default_factory()] *)
Definition call (f : factory) : M failure state V :=
  fun s =>
    match f (world s) with
    | (Return v, w) => (Return v, {| self := self s; world := w |})
    | (Raise x, w) => (Raise (FromFactory x), {| self := self s; world := w |})
    end.

Definition __missing__ (key : K) : M failure state V :=
  df <- gets (fun s => _default_factory (self s));;
  match df with
  | None => raise (Missing key)
  | Some f =>
      value <- call f;;
      __setitem__ key value;;;
      ret value
  end.

(** [dict.__getitem__], which calls [__missing__] of the class for a key
    that is not there. *)
Definition OrderedDict__getitem__ (key : K) : M failure state V :=
  l <- gets (fun s => items (self s));;
  match Container.od_lookup key l with
  | Some v => ret v
  | None => __missing__ key
  end.

Definition __getitem__ (key : K) : M failure state V :=
  try_except (OrderedDict__getitem__ key) is_KeyError (__missing__ key).

(** A factory that always returns, as a factory that may raise. *)
Definition total (f : W -> V * W) : factory :=
  fun w => (Return (f w).1, (f w).2).

End Dict.

Arguments DefaultOrderedDict : clear implicits.
Arguments state : clear implicits.
Arguments failure : clear implicits.
Arguments factory : clear implicits.

(** A factory that raises [KeyError('boom')] at each call and counts its
    calls, for closed examples. *)
Definition boom : factory (list string) nat string :=
  fun calls => (Raise "KeyError('boom')", S calls).

End RaisingFactory.

(** * Properties of the tiered reporter *)

Section ReporterFacts.

Import Reporter.

Context {E : Type}.
Variable colored : string -> option string -> option string -> list string -> string.

(** Unfold a reporter call on a process given by its two fields. *)
Ltac run_reporter :=
  unfold print_info, print_warning, print_critical, print_secret,
    debug_details, cprint, print, bind, gets, modify, ret, styled; simpl.

Lemma debug_details_run (errcode : Z) (initial_error : string)
    (c : Config) (l : list (stream * string)) :
  debug_details (E := E) errcode initial_error {| cfg := c; console := l |}
  = (Return tt,
     {| cfg := c;
        console := l ++ if DEBUG c then detail_lines errcode initial_error
                        else [] |}).
Proof.
  destruct c as [q [] t]; run_reporter; unfold detail_lines;
    repeat case_bool_decide; simpl;
    rewrite ?app_nil_r, <- ?app_assoc; reflexivity.
Qed.

Lemma print_info_run (message : string) (c : Config)
    (l : list (stream * string)) :
  print_info (E := E) colored message {| cfg := c; console := l |}
  = (Return tt,
     {| cfg := c;
        console := l ++ if QUIET c then []
                        else [(stdout, styled colored (ISATTY c) "[INFO] "
                                         message (Some "green") None [])] |}).
Proof.
  destruct c as [[] d []]; run_reporter; rewrite ?app_nil_r; reflexivity.
Qed.

Lemma print_critical_run (message : string) (errcode : Z)
    (initial_error : string) (c : Config) (l : list (stream * string)) :
  print_critical (E := E) colored message errcode initial_error
    {| cfg := c; console := l |}
  = (Return tt,
     {| cfg := c;
        console := l ++ (if DEBUG c then detail_lines errcode initial_error
                         else [])
                     ++ [(stdout, styled colored (ISATTY c) "[CRITICAL] "
                                    message (Some "white") (Some "on_red")
                                    ["bold"])] |}).
Proof.
  unfold print_critical. unfold bind at 1. rewrite debug_details_run.
  destruct c as [q d []]; run_reporter; rewrite <- app_assoc; reflexivity.
Qed.

Lemma print_warning_run (message : string) (errcode : Z)
    (initial_error : string) (c : Config) (l : list (stream * string)) :
  print_warning (E := E) colored message errcode initial_error
    {| cfg := c; console := l |}
  = (Return tt,
     {| cfg := c;
        console := l ++ if QUIET c then []
                        else (if DEBUG c
                              then detail_lines errcode initial_error
                              else [])
                             ++ [(stdout, styled colored (ISATTY c)
                                            "[WARNING] " message
                                            (Some "yellow") None [])] |}).
Proof.
  unfold print_warning. unfold bind at 1, gets at 1. simpl.
  destruct (QUIET c) eqn:Hquiet.
  - unfold ret. rewrite app_nil_r. reflexivity.
  - unfold bind at 1. rewrite debug_details_run.
    destruct c as [q d []]; run_reporter; rewrite <- app_assoc; reflexivity.
Qed.

Lemma print_secret_run (message secret : string) (c : Config)
    (l : list (stream * string)) :
  print_secret (E := E) colored message secret {| cfg := c; console := l |}
  = (Return tt,
     {| cfg := c;
        console := l ++ [(stdout,
          if ISATTY c
          then colored ("[SECRET] "
                        +:+ colored message (Some "white") None ["bold"] +:+ " "
                        +:+ colored secret (Some "white") (Some "on_grey")
                              ["bold"])
                 (Some "white") None ["bold"]
          else "[SECRET] " +:+ message +:+ " " +:+ secret)] |}).
Proof. destruct c as [q d []]; run_reporter; reflexivity. Qed.

(** C2, as the code has it.  In debug mode [print_warning] (unless quiet
    mode silences it) and [print_critical] write, in this order: the line
    of the error code when the code is not zero, on the standard output;
    the initial error when it is not empty, on the standard error; the main
    message, on the standard output. *)
Theorem debug_details_then_message (message : string) (errcode : Z)
    (initial_error : string) (p : process) :
  DEBUG (cfg p) = true ->
  print_warning (E := E) colored message errcode initial_error p
  = (Return tt,
     {| cfg := cfg p;
        console := console p ++
          if QUIET (cfg p) then []
          else (if bool_decide (errcode = 0) then []
                else [(stdout, "ERRCODE: " +:+ str_of_int errcode)])
               ++ (if bool_decide (initial_error = "") then []
                   else [(stderr, initial_error)])
               ++ [(stdout, styled colored (ISATTY (cfg p)) "[WARNING] "
                              message (Some "yellow") None [])] |})
  /\ print_critical (E := E) colored message errcode initial_error p
  = (Return tt,
     {| cfg := cfg p;
        console := console p ++
          (if bool_decide (errcode = 0) then []
           else [(stdout, "ERRCODE: " +:+ str_of_int errcode)])
          ++ (if bool_decide (initial_error = "") then []
              else [(stderr, initial_error)])
          ++ [(stdout, styled colored (ISATTY (cfg p)) "[CRITICAL] "
                         message (Some "white") (Some "on_red") ["bold"])] |}).
Proof.
  destruct p as [c l]; simpl; intros Hdebug.
  rewrite print_warning_run, print_critical_run, Hdebug.
  unfold detail_lines. rewrite <- !app_assoc. split; reflexivity.
Qed.

(** C5.  In quiet mode [print_info] and [print_warning] return without
    writing anything, whereas [print_critical] still writes its message
    (preceded by the detail lines in debug mode). *)
Theorem quiet_suppression (message : string) (errcode : Z)
    (initial_error : string) (p : process) :
  QUIET (cfg p) = true ->
  print_info (E := E) colored message p = (Return tt, p)
  /\ print_warning (E := E) colored message errcode initial_error p
     = (Return tt, p)
  /\ print_critical (E := E) colored message errcode initial_error p
     = (Return tt,
        {| cfg := cfg p;
           console := console p
             ++ (if DEBUG (cfg p) then detail_lines errcode initial_error
                 else [])
             ++ [(stdout, styled colored (ISATTY (cfg p)) "[CRITICAL] "
                            message (Some "white") (Some "on_red")
                            ["bold"])] |}).
Proof.
  destruct p as [c l]; simpl; intros Hquiet.
  rewrite print_info_run, print_warning_run, print_critical_run, Hquiet.
  rewrite app_nil_r. repeat split.
Qed.

End ReporterFacts.

(** * Properties of the structured error *)

Section USBRipErrorFacts.

Import USBRipError.

Lemma lookup_setdefault (key key' : string) (v : value)
    (d : gmap string value) :
  setdefault key v d !! key'
  = if decide (key = key') then Some (default v (d !! key)) else d !! key'.
Proof.
  unfold setdefault. destruct (d !! key) as [x|] eqn:Hd.
  - case_decide; subst; simpl; congruence.
  - rewrite lookup_insert. case_decide; reflexivity.
Qed.

Lemma falsy_supplied (errors : option (gmap string value)) :
  (if falsy errors then ∅ else default ∅ errors) = default ∅ errors.
Proof.
  destruct errors as [d|]; simpl; [|reflexivity].
  case_bool_decide; congruence.
Qed.

(** C6.  Whatever the message and the mapping handed in (none at all
    included), [errors] holds [errcode] and [initial_error]: with the
    caller's value when there is one, with [0] and the empty string
    otherwise; every other key has exactly what the caller supplied.  With no
    mapping the result is [{errcode: 0, initial_error: ''}], and with
    [{errcode: 5}] it is [{errcode: 5, initial_error: ''}]. *)
Theorem errors_defaulting (message : string)
    (supplied : option (gmap string value)) :
  let e := USBRipError.__init__ message supplied in
  errors e !! "errcode"
  = Some (default (VInt 0) (default ∅ supplied !! "errcode"))
  /\ errors e !! "initial_error"
     = Some (default (VStr "") (default ∅ supplied !! "initial_error"))
  /\ (forall key, key ≠ "errcode" -> key ≠ "initial_error" ->
        errors e !! key = default ∅ supplied !! key)
  /\ errors (USBRipError.__init__ message None)
     = {[ "errcode" := VInt 0; "initial_error" := VStr "" ]}
  /\ errors (USBRipError.__init__ message (Some {[ "errcode" := VInt 5 ]}))
     = {[ "errcode" := VInt 5; "initial_error" := VStr "" ]}.
Proof.
  unfold USBRipError.__init__. simpl. rewrite falsy_supplied.
  split; [|split; [|split; [|split]]].
  - rewrite !lookup_setdefault. simpl. reflexivity.
  - rewrite !lookup_setdefault. simpl. reflexivity.
  - intros key H1 H2. rewrite !lookup_setdefault.
    repeat case_decide; congruence.
  - unfold setdefault. rewrite lookup_empty, lookup_insert_ne by done.
    rewrite lookup_empty, <- insert_empty. apply insert_insert_ne. done.
  - case_bool_decide as Hd; [destruct (map_non_empty_singleton _ _ Hd)|].
    unfold setdefault.
    rewrite lookup_singleton_eq, lookup_singleton_ne by done.
    rewrite <- (insert_empty "initial_error"), <- insert_empty.
    apply insert_insert_ne. done.
Qed.

End USBRipErrorFacts.

(** * Properties of the container *)

Section ContainerFacts.

Import Container.

Context {K V W : Type} `{EqDecision K}.

Implicit Types (l : list (K * V)) (key : K) (C : DefaultOrderedDict K V W).

(** ** The inherited operations on the list of pairs *)

Lemma od_lookup_None key l : od_lookup key l = None <-> key ∉ l.*1.
Proof.
  induction l as [|[k v] l IH]; simpl.
  - split; [intros _; apply not_elem_of_nil | reflexivity].
  - rewrite not_elem_of_cons. case_decide as Hk.
    + split; [discriminate | intros [Hne _]; congruence].
    + rewrite IH. split; [intros Hl; split; [congruence | exact Hl] | tauto].
Qed.

Lemma od_lookup_Some key l v : od_lookup key l = Some v -> key ∈ l.*1.
Proof.
  intros Hv. destruct (decide (key ∈ l.*1)) as [Hin|Hout]; [exact Hin|].
  apply od_lookup_None in Hout. congruence.
Qed.

Lemma od_setitem_absent key v l :
  key ∉ l.*1 -> od_setitem key v l = l ++ [(key, v)].
Proof.
  induction l as [|[k x] l IH]; simpl; [reflexivity|].
  rewrite not_elem_of_cons. intros [Hne Hl].
  case_decide; [congruence|]. rewrite IH by exact Hl. reflexivity.
Qed.

Lemma od_setitem_present key v l :
  key ∈ l.*1 -> (od_setitem key v l).*1 = l.*1.
Proof.
  induction l as [|[k x] l IH]; simpl.
  - intros Hin. apply elem_of_nil in Hin. destruct Hin.
  - intros Hin. case_decide as Hk; simpl; [reflexivity|].
    apply elem_of_cons in Hin as [Heq|Hin]; [congruence|].
    f_equal. apply IH, Hin.
Qed.

Lemma od_setitem_keys key v l :
  (od_setitem key v l).*1
  = if decide (key ∈ l.*1) then l.*1 else l.*1 ++ [key].
Proof.
  case_decide as Hin.
  - apply od_setitem_present, Hin.
  - rewrite od_setitem_absent by exact Hin. rewrite fmap_app. reflexivity.
Qed.

Lemma od_update_fresh (pairs l : list (K * V)) :
  NoDup ((l ++ pairs).*1) -> od_update pairs l = l ++ pairs.
Proof.
  revert l. induction pairs as [|[k v] pairs IH]; intros l Hnd; simpl.
  - rewrite app_nil_r. reflexivity.
  - unfold od_update in *. simpl.
    rewrite od_setitem_absent.
    + rewrite IH; rewrite <- app_assoc; [reflexivity | exact Hnd].
    + rewrite fmap_app in Hnd. apply NoDup_app in Hnd as (_ & Hdisj & _).
      intros Hin. apply (Hdisj k Hin). simpl. apply elem_of_cons. left.
      reflexivity.
Qed.

(** ** Lookup *)

(** C1.  When the factory [F] is there and [key] is not in [C], one lookup
    [C[key]] calls [F] once, returns what [F] returned and leaves [C] with
    the pair of [key] and that value added after all the pairs it had. *)
Theorem getitem_absent_with_factory C (F : factory V W) key (w : W) :
  _default_factory C = PyCallable F ->
  key ∉ keys C ->
  __getitem__ key {| self := C; world := w |}
  = (Return (F w).1,
     {| self := {| items := items C ++ [(key, (F w).1)];
                   _default_factory := PyCallable F |};
        world := (F w).2 |}).
Proof.
  destruct C as [l df]. unfold keys. simpl. intros -> Hout.
  pose proof Hout as Hnone. apply od_lookup_None in Hnone.
  unfold __getitem__, try_except, OrderedDict__getitem__, bind, gets. simpl.
  rewrite Hnone. unfold __missing__, bind, gets. simpl.
  destruct (F w) as [v w'] eqn:HFw. simpl.
  rewrite od_setitem_absent by exact Hout. reflexivity.
Qed.

(** C7.  When there is no factory and [key] is not in [C], the lookup
    [C[key]] raises [KeyError(key)] and [C] is as it was. *)
Theorem getitem_absent_without_factory C key (w : W) :
  _default_factory C = PyNone ->
  key ∉ keys C ->
  __getitem__ key {| self := C; world := w |}
  = (Raise (KeyError key), {| self := C; world := w |}).
Proof.
  destruct C as [l df]. unfold keys. simpl. intros -> Hout.
  apply od_lookup_None in Hout.
  unfold __getitem__, try_except, OrderedDict__getitem__, __missing__,
    bind, gets, raise.
  simpl. rewrite Hout. reflexivity.
Qed.

(** A key that is there is read without any change. *)
Lemma getitem_present C key v (w : W) :
  od_lookup key (items C) = Some v ->
  __getitem__ key {| self := C; world := w |}
  = (Return v, {| self := C; world := w |}).
Proof.
  intros Hv. unfold __getitem__, try_except, OrderedDict__getitem__, bind, gets.
  simpl. rewrite Hv. reflexivity.
Qed.

(** ** Order of the keys *)

Lemma first_insertion_order_ext (seen1 seen2 ks : list K) :
  (forall k, k ∈ seen1 <-> k ∈ seen2) ->
  first_insertion_order seen1 ks = first_insertion_order seen2 ks.
Proof.
  revert seen1 seen2. induction ks as [|k ks IH]; intros seen1 seen2 Hsame;
    simpl; [reflexivity|].
  destruct (decide (k ∈ seen1)) as [Hin|Hout];
    destruct (decide (k ∈ seen2)) as [Hin'|Hout'];
    try (exfalso; apply Hsame in Hin; contradiction);
    try (exfalso; apply Hsame in Hin'; contradiction).
  - apply IH, Hsame.
  - f_equal. apply IH. intros x. rewrite !elem_of_cons, Hsame. reflexivity.
Qed.

Lemma first_insertion_order_app (seen ks1 ks2 : list K) :
  first_insertion_order seen (ks1 ++ ks2)
  = first_insertion_order seen ks1
    ++ first_insertion_order (seen ++ first_insertion_order seen ks1) ks2.
Proof.
  revert seen. induction ks1 as [|k ks1 IH]; intros seen; simpl.
  - rewrite app_nil_r. reflexivity.
  - case_decide as Hin; [apply IH|].
    simpl. f_equal. rewrite IH. f_equal.
    apply first_insertion_order_ext. intros x.
    repeat (rewrite elem_of_app || rewrite elem_of_cons). tauto.
Qed.

(** One operation: the factory stays, and the keys gain at most the key of
    the operation, at the end. *)
Lemma run_op_keys (o : op K V) (s : state K V W) :
  _default_factory (self (run_op o s).2) = _default_factory (self s)
  /\ keys (self (run_op o s).2)
     = keys (self s)
       ++ first_insertion_order (keys (self s))
            (stored_keys (_default_factory (self s)) [o]).
Proof.
  destruct s as [[l df] w]. destruct o as [key value|key]; unfold keys; simpl.
  - split; [reflexivity|]. rewrite od_setitem_keys.
    case_decide; [rewrite app_nil_r|]; reflexivity.
  - unfold __getitem__, try_except, OrderedDict__getitem__, bind, gets, ret.
    simpl. destruct (od_lookup key l) as [v|] eqn:Hl; simpl.
    + split; [reflexivity|]. apply od_lookup_Some in Hl.
      destruct (callable df); simpl; [|rewrite app_nil_r; reflexivity].
      case_decide; [|contradiction]. rewrite app_nil_r. reflexivity.
    + apply od_lookup_None in Hl.
      unfold __missing__, bind, gets, raise. simpl.
      destruct df as [|f|pairs|n]; simpl;
        try (split; [reflexivity | rewrite app_nil_r; reflexivity]).
      destruct (f w) as [v w'] eqn:Hf. simpl. split; [reflexivity|].
      rewrite od_setitem_absent by exact Hl. rewrite fmap_app. simpl.
      case_decide; [contradiction | reflexivity].
Qed.

Lemma stored_keys_cons (df : pyobj K V W) (o : op K V) (ops : list (op K V)) :
  stored_keys df (o :: ops) = stored_keys df [o] ++ stored_keys df ops.
Proof. unfold stored_keys. simpl. rewrite app_nil_r. reflexivity. Qed.

Lemma run_ops_keys (ops : list (op K V)) (s : state K V W) :
  keys (self (run_ops ops s))
  = keys (self s)
    ++ first_insertion_order (keys (self s))
         (stored_keys (_default_factory (self s)) ops).
Proof.
  revert s. induction ops as [|o ops IH]; intros s.
  - simpl. rewrite app_nil_r. reflexivity.
  - change (run_ops (o :: ops) s) with (run_ops ops (run_op o s).2).
    destruct (run_op_keys o s) as [Hdf Hkeys].
    rewrite IH, Hdf, (stored_keys_cons _ o ops), Hkeys,
      first_insertion_order_app.
    rewrite <- app_assoc. reflexivity.
Qed.

(** C8.  After any sequence of assignments and lookups, the keys come out
    in the order in which they were first stored: the keys the container
    had, then the new ones, each where it first occurred.  An assignment to
    a key that is there leaves the order as it is; one to a new key puts it
    last. *)
Theorem keys_in_first_insertion_order (ops : list (op K V))
    (s : state K V W) :
  keys (self (run_ops ops s))
  = keys (self s)
    ++ first_insertion_order (keys (self s))
         (stored_keys (_default_factory (self s)) ops)
  /\ (forall key value,
        keys (self (__setitem__ key value s).2)
        = if decide (key ∈ keys (self s)) then keys (self s)
          else keys (self s) ++ [key]).
Proof.
  split; [apply run_ops_keys|].
  intros key value. unfold keys. simpl. apply od_setitem_keys.
Qed.

(** ** Construction *)

(** C10.  A [default_factory] that is neither [None] nor callable makes the
    constructor raise [TypeError], whatever the other arguments, so that no
    container comes out.  With [None] or a callable the constructor returns
    a container whenever the inherited constructor accepts the other
    arguments, as it does when there is no positional argument or a single
    iterable one. *)
Theorem init_checks_default_factory (args : list (pyobj K V W))
    (default_factory : pyobj K V W) (pairs kwargs : list (K * V)) :
  (default_factory ≠ PyNone -> callable default_factory = false ->
   __init__ args default_factory kwargs
   = Raise (TypeError "first argument must be callable"))
  /\ (default_factory = PyNone \/ callable default_factory = true ->
      (forall l, OrderedDict__init__ args kwargs = Return l ->
         __init__ args default_factory kwargs
         = Return {| items := l; _default_factory := default_factory |})
      /\ __init__ [] default_factory kwargs
         = Return {| items := od_update kwargs [];
                     _default_factory := default_factory |}
      /\ __init__ [PyMapping pairs] default_factory kwargs
         = Return {| items := od_update kwargs (od_update pairs []);
                     _default_factory := default_factory |}).
Proof.
  unfold __init__. split.
  - intros Hnone Hcall. rewrite Hcall.
    destruct default_factory; simpl; congruence.
  - intros Hok.
    assert (negb (is_none default_factory) && negb (callable default_factory)
            = false) as ->.
    { destruct Hok as [->|Hcall]; [reflexivity|].
      rewrite Hcall. apply andb_false_r. }
    split; [|split; reflexivity].
    intros l ->. reflexivity.
Qed.

(** ** Copy and pickling *)

(** C3, on the code: [copy] raises.  It hands the factory and [self] to the
    class as two positional arguments; [default_factory] can only be given
    by keyword, so both reach [OrderedDict.__init__], which takes one. *)
Theorem copy_raises_TypeError (s : state K V W) :
  copy s = (Raise (TypeError "expected at most 1 arguments, got 2"), s).
Proof.
  unfold copy, __copy__, construct, bind, gets, __init__. simpl.
  destruct (_default_factory (self s)); reflexivity.
Qed.

(** C4, on the code: with a factory the value of [__reduce__] cannot be
    turned back into a container.  The factory is the one positional
    argument of the call that rebuilds the object, so it is read as the
    initial pairs, and a function or a class is not iterable. *)
Theorem round_trip_with_factory_raises C (F : factory V W) (w : W) :
  _default_factory C = PyCallable F ->
  round_trip {| self := C; world := w |}
  = (Raise (TypeError "object is not iterable"), {| self := C; world := w |}).
Proof.
  destruct C as [l df]. simpl. intros ->. reflexivity.
Qed.

(** X11.  Without a factory, and with no key twice, the round trip gives
    the container back: same keys in the same order, same values. *)
Lemma round_trip_without_factory C (w : W) :
  _default_factory C = PyNone ->
  NoDup (keys C) ->
  round_trip {| self := C; world := w |}
  = (Return C, {| self := C; world := w |}).
Proof.
  destruct C as [l df]. unfold keys. simpl. intros -> Hnd.
  unfold round_trip, bind, __reduce__, gets, ret, reconstruct. simpl.
  rewrite (od_update_fresh l []) by exact Hnd. reflexivity.
Qed.

End ContainerFacts.

(** * Closed instances *)

Section Instances.

Import Reporter USBRipError Container.

(** C2 as it was stated does not hold.  With errcode 7 and initial error
    "disk full" in debug mode, no choice of texts makes the lines of
    [print_warning] or of [print_critical] two lines on the standard error
    followed by one on the standard output: the line of the error code is
    on the standard output.  And in quiet mode [print_warning] writes
    nothing, debug mode or not. *)
Lemma debug_details_streams_counterexample :
  ~ (exists code cause main,
       console (print_warning (E := unit) ansi_colored "x" 7 "disk full"
                  debug_process).2
       = [(stderr, code); (stderr, cause); (stdout, main)])
  /\ ~ (exists code cause main,
          console (print_critical (E := unit) ansi_colored "x" 7 "disk full"
                     debug_process).2
          = [(stderr, code); (stderr, cause); (stdout, main)])
  /\ console (print_warning (E := unit) ansi_colored "x" 7 "disk full"
                quiet_debug_process).2 = [].
Proof.
  repeat split.
  - intros (code & cause & main & Heq). vm_compute in Heq. discriminate Heq.
  - intros (code & cause & main & Heq). vm_compute in Heq. discriminate Heq.
Qed.

Lemma debug_details_then_message_witness :
  DEBUG (cfg debug_process) = true
  /\ print_warning (E := unit) ansi_colored "x" 7 "disk full" debug_process
     = (Return tt,
        {| cfg := cfg debug_process;
           console := [(stdout, "ERRCODE: 7"); (stderr, "disk full");
                       (stdout, "[WARNING] x")] |})
  /\ print_critical (E := unit) ansi_colored "x" 7 "disk full" debug_process
     = (Return tt,
        {| cfg := cfg debug_process;
           console := [(stdout, "ERRCODE: 7"); (stderr, "disk full");
                       (stdout, "[CRITICAL] x")] |}).
Proof.
  split; [reflexivity|].
  exact (debug_details_then_message ansi_colored "x" 7 "disk full"
           debug_process eq_refl).
Defined.

Lemma quiet_suppression_witness :
  QUIET (cfg quiet_debug_process) = true
  /\ print_info (E := unit) ansi_colored "x" quiet_debug_process
     = (Return tt, quiet_debug_process)
  /\ print_warning (E := unit) ansi_colored "x" 7 "disk full"
       quiet_debug_process
     = (Return tt, quiet_debug_process)
  /\ print_critical (E := unit) ansi_colored "x" 7 "disk full"
       quiet_debug_process
     = (Return tt,
        {| cfg := cfg quiet_debug_process;
           console := [(stdout, "ERRCODE: 7"); (stderr, "disk full");
                       (stdout, "[CRITICAL] x")] |}).
Proof.
  split; [reflexivity|].
  exact (quiet_suppression ansi_colored "x" 7 "disk full"
           quiet_debug_process eq_refl).
Defined.

Lemma errors_defaulting_witness :
  "path" ≠ "errcode" /\ "path" ≠ "initial_error"
  /\ errors (USBRipError.__init__ "Permission denied"
               (Some {[ "path" := VStr "/var/log" ]})) !! "path"
     = Some (VStr "/var/log").
Proof.
  split; [discriminate|]. split; [discriminate|].
  exact (proj1 (proj2 (proj2
           (errors_defaulting "Permission denied"
              (Some {[ "path" := VStr "/var/log" ]}))))
           "path" ltac:(discriminate) ltac:(discriminate)).
Defined.

Lemma getitem_absent_with_factory_witness :
  _default_factory events_per_user = PyCallable list_factory
  /\ ("bob" ∉ keys events_per_user)
  /\ __getitem__ "bob" {| self := events_per_user; world := tt |}
     = (Return [],
        {| self := {| items := [("alice", ["login"]); ("bob", [])];
                      _default_factory := PyCallable list_factory |};
           world := tt |}).
Proof.
  assert ("bob" ∉ keys events_per_user) as Hout
    by (apply (bool_decide_unpack _); vm_compute; exact I).
  split; [reflexivity|]. split; [exact Hout|].
  exact (getitem_absent_with_factory events_per_user list_factory "bob" tt
           eq_refl Hout).
Defined.

Lemma getitem_absent_without_factory_witness :
  _default_factory events_no_factory = PyNone
  /\ ("bob" ∉ keys events_no_factory)
  /\ __getitem__ "bob" {| self := events_no_factory; world := tt |}
     = (Raise (KeyError "bob"), {| self := events_no_factory; world := tt |}).
Proof.
  assert ("bob" ∉ keys events_no_factory) as Hout
    by (apply (bool_decide_unpack _); vm_compute; exact I).
  split; [reflexivity|]. split; [exact Hout|].
  exact (getitem_absent_without_factory events_no_factory "bob" tt
           eq_refl Hout).
Defined.

Lemma init_checks_default_factory_witness :
  PyAtom 5 ≠ (PyNone : pyobj string (list string) unit)
  /\ __init__ [] (PyAtom 5) [("alice", ["login"])]
     = (Raise (TypeError "first argument must be callable")
        : outcome (exception string)
            (DefaultOrderedDict string (list string) unit))
  /\ __init__ [] (PyCallable list_factory) [("alice", ["login"])]
     = Return events_per_user.
Proof.
  split; [discriminate|]. split.
  - exact (proj1 (init_checks_default_factory [] (PyAtom 5) []
                    [("alice", ["login"])])
             ltac:(discriminate) eq_refl).
  - exact (proj1 (proj2 (proj2 (init_checks_default_factory []
                    (PyCallable list_factory) [] [("alice", ["login"])])
             (or_intror eq_refl)))).
Defined.

Lemma round_trip_with_factory_raises_witness :
  _default_factory events_per_user = PyCallable list_factory
  /\ round_trip {| self := events_per_user; world := tt |}
     = (Raise (TypeError "object is not iterable"),
        {| self := events_per_user; world := tt |}).
Proof.
  split; [reflexivity|].
  exact (round_trip_with_factory_raises events_per_user list_factory tt
           eq_refl).
Defined.

End Instances.

(** * Further properties of the container *)

Section ContainerInvariants.

Import Container.

Context {K V W : Type} `{EqDecision K}.

Implicit Types (l : list (K * V)) (key : K) (s : state K V W).

Lemma od_lookup_setitem key key' (v : V) l :
  od_lookup key' (od_setitem key v l)
  = if decide (key = key') then Some v else od_lookup key' l.
Proof.
  induction l as [|[k x] l IH]; simpl.
  - repeat case_decide; congruence.
  - destruct (decide (k = key)) as [->|Hk]; simpl.
    + repeat case_decide; congruence.
    + rewrite IH. repeat case_decide; congruence.
Qed.

Lemma od_lookup_app key (l1 l2 : list (K * V)) :
  od_lookup key (l1 ++ l2)
  = match od_lookup key l1 with
    | Some v => Some v
    | None => od_lookup key l2
    end.
Proof.
  induction l1 as [|[k x] l1 IH]; simpl; [reflexivity|].
  case_decide; [reflexivity | exact IH].
Qed.

Lemma od_update_app (pairs1 pairs2 l : list (K * V)) :
  od_update (pairs1 ++ pairs2) l = od_update pairs2 (od_update pairs1 l).
Proof. unfold od_update. apply fold_left_app. Qed.

Lemma od_update_lookup key (pairs l : list (K * V)) :
  od_lookup key (od_update pairs l)
  = match od_lookup key (reverse pairs) with
    | Some v => Some v
    | None => od_lookup key l
    end.
Proof.
  revert l. induction pairs as [|[k v] pairs IH]; intros l; [reflexivity|].
  change (od_update ((k, v) :: pairs) l)
    with (od_update pairs (od_setitem k v l)).
  rewrite IH, reverse_cons, od_lookup_app, od_lookup_setitem. simpl.
  destruct (od_lookup key (reverse pairs)); [reflexivity|].
  case_decide; reflexivity.
Qed.

Lemma od_update_keys (pairs l : list (K * V)) :
  (od_update pairs l).*1 = l.*1 ++ first_insertion_order l.*1 pairs.*1.
Proof.
  revert l. induction pairs as [|[k v] pairs IH]; intros l.
  - simpl. rewrite app_nil_r. reflexivity.
  - change (od_update ((k, v) :: pairs) l)
      with (od_update pairs (od_setitem k v l)).
    rewrite IH, od_setitem_keys. simpl.
    destruct (decide (k ∈ l.*1)) as [Hin|Hout]; [reflexivity|].
    rewrite <- app_assoc. simpl. do 2 f_equal.
    apply first_insertion_order_ext. intros x.
    rewrite elem_of_app, !elem_of_cons, elem_of_nil. tauto.
Qed.

Lemma NoDup_first_insertion_order (seen ks : list K) :
  NoDup seen -> NoDup (seen ++ first_insertion_order seen ks).
Proof.
  revert seen. induction ks as [|k ks IH]; intros seen Hnd; simpl.
  - rewrite app_nil_r. exact Hnd.
  - case_decide as Hin; [apply IH, Hnd|].
    rewrite (first_insertion_order_ext (k :: seen) (seen ++ [k])).
    + rewrite cons_middle, app_assoc. apply IH.
      apply NoDup_app. split; [exact Hnd|]. split; [|apply NoDup_singleton].
      intros x Hx Hx'. apply list_elem_of_singleton in Hx'. congruence.
    + intros x. rewrite elem_of_app, !elem_of_cons, elem_of_nil. tauto.
Qed.

(** X1.  What the constructor guarantees.  When it returns a container,
    there was no positional argument or a single iterable one, never a
    factory; the factory of the container is the keyword argument, which is
    [None] or callable; and no key occurs twice. *)
Theorem init_returns_well_formed (args : list (pyobj K V W))
    (default_factory : pyobj K V W) (kwargs : list (K * V))
    (d : DefaultOrderedDict K V W) :
  __init__ args default_factory kwargs = Return d ->
  (args = [] \/ exists pairs, args = [PyMapping pairs])
  /\ _default_factory d = default_factory
  /\ (default_factory = PyNone \/ callable default_factory = true)
  /\ NoDup (keys d).
Proof.
  unfold __init__, OrderedDict__init__, keys.
  destruct (negb (is_none default_factory) && negb (callable default_factory))
    eqn:Hcheck; [discriminate|].
  assert (default_factory = PyNone \/ callable default_factory = true) as Hdf.
  { destruct default_factory; simpl in *; auto; discriminate. }
  assert (forall pairs, NoDup (od_update pairs ([] : list (K * V))).*1) as Hnd.
  { intros pairs. rewrite od_update_keys. simpl.
    apply (NoDup_first_insertion_order []), NoDup_nil_2. }
  destruct args as [|a [|b args]].
  - intros [= <-]. simpl. auto.
  - destruct a as [|f|pairs|n]; try discriminate. intros [= <-]. simpl.
    rewrite <- od_update_app. split; [right; exists pairs; reflexivity|].
    auto.
  - destruct a; discriminate.
Qed.

(** X2.  Initial pairs and keyword arguments: the keys of the container
    are the keys given, each at its first occurrence, and a key is bound to
    the value of its last occurrence. *)
Theorem init_first_position_last_value (default_factory : pyobj K V W)
    (pairs kwargs : list (K * V)) (d : DefaultOrderedDict K V W) :
  __init__ [PyMapping pairs] default_factory kwargs = Return d ->
  keys d = first_insertion_order [] (pairs ++ kwargs).*1
  /\ forall key,
       od_lookup key (items d) = od_lookup key (reverse (pairs ++ kwargs)).
Proof.
  unfold __init__, OrderedDict__init__, keys.
  destruct (negb (is_none default_factory) && negb (callable default_factory));
    [discriminate|].
  intros [= <-]. simpl. rewrite <- od_update_app. split.
  - rewrite od_update_keys. reflexivity.
  - intros key. rewrite od_update_lookup.
    destruct (od_lookup key (reverse (pairs ++ kwargs))); reflexivity.
Qed.

(** ** Lookups *)

(** A key that is not there, with a callable factory. *)
Lemma getitem_absent_run (l : list (K * V)) (F : factory V W) key (w : W) :
  key ∉ l.*1 ->
  __getitem__ key
    {| self := {| items := l; _default_factory := PyCallable F |};
       world := w |}
  = (Return (F w).1,
     {| self := {| items := l ++ [(key, (F w).1)];
                   _default_factory := PyCallable F |};
        world := (F w).2 |}).
Proof.
  intros Hout. pose proof Hout as Hnone. apply od_lookup_None in Hnone.
  unfold __getitem__, try_except, OrderedDict__getitem__, bind, gets. simpl.
  rewrite Hnone. unfold __missing__, bind, gets. simpl.
  destruct (F w) as [v w']. simpl.
  rewrite od_setitem_absent by exact Hout. reflexivity.
Qed.

(** A key that is not there: what the lookup does, by the kind of object
    kept as the factory. *)
Lemma getitem_absent_cases (l : list (K * V)) (df : pyobj K V W) key (w : W) :
  key ∉ l.*1 ->
  __getitem__ key {| self := {| items := l; _default_factory := df |};
                     world := w |}
  = match df with
    | PyNone =>
        (Raise (KeyError key),
         {| self := {| items := l; _default_factory := df |}; world := w |})
    | PyCallable F =>
        (Return (F w).1,
         {| self := {| items := l ++ [(key, (F w).1)];
                       _default_factory := df |};
            world := (F w).2 |})
    | _ =>
        (Raise (TypeError "object is not callable"),
         {| self := {| items := l; _default_factory := df |}; world := w |})
    end.
Proof.
  intros Hout. destruct df as [|F|pairs|n];
    try apply (getitem_absent_run l F key w Hout);
    apply od_lookup_None in Hout;
    unfold __getitem__, try_except, OrderedDict__getitem__, __missing__,
      bind, gets, raise; simpl; rewrite Hout; reflexivity.
Qed.

(** X4.  A lookup that returned a value can be repeated: the second one
    returns the same value and changes nothing; in particular the factory
    is not called again. *)
Theorem getitem_twice key (v : V) s s' :
  __getitem__ key s = (Return v, s') ->
  __getitem__ key s' = (Return v, s').
Proof.
  destruct s as [[l df] w].
  destruct (od_lookup key l) as [v0|] eqn:Hl.
  - rewrite (getitem_present _ key v0 w) by exact Hl.
    intros [= <- <-]. apply getitem_present. exact Hl.
  - apply od_lookup_None in Hl. rewrite getitem_absent_cases by exact Hl.
    destruct df as [|F|pairs|n]; try discriminate.
    intros [= <- <-]. apply getitem_present. simpl.
    rewrite od_lookup_app. apply od_lookup_None in Hl. rewrite Hl. simpl.
    case_decide; [reflexivity | congruence].
Qed.

(** X5.  What is stored is what is read: after [d[key] = value] the lookup
    [d[key]] returns [value], without any further change and without a call
    of the factory. *)
Theorem setitem_then_getitem key (value : V) s :
  bind (__setitem__ key value) (fun _ => __getitem__ key) s
  = (Return value, (__setitem__ key value s).2).
Proof.
  destruct s as [[l df] w]. unfold bind. simpl.
  apply getitem_present. simpl. rewrite od_lookup_setitem.
  case_decide; [reflexivity | congruence].
Qed.

(** X6.  A lookup, of whatever key, leaves every binding of the container
    as it is: what was bound to a key before is bound to it after. *)
Theorem getitem_keeps_bindings key key' (v : V) s :
  od_lookup key' (items (self s)) = Some v ->
  od_lookup key' (items (self (__getitem__ key s).2)) = Some v.
Proof.
  destruct s as [[l df] w]. simpl. intros Hv.
  destruct (od_lookup key l) as [v0|] eqn:Hl.
  - rewrite (getitem_present _ key v0 w) by exact Hl. exact Hv.
  - apply od_lookup_None in Hl. rewrite getitem_absent_cases by exact Hl.
    destruct df as [|F|pairs|n]; simpl; try exact Hv.
    rewrite od_lookup_app, Hv. reflexivity.
Qed.

(** ** Deletion *)

Lemma od_delitem_None key l : od_delitem key l = None <-> key ∉ l.*1.
Proof.
  induction l as [|[k v] l IH]; simpl.
  - split; [intros _; apply not_elem_of_nil | reflexivity].
  - rewrite not_elem_of_cons. case_decide as Hk.
    + split; [discriminate | intros [Hne _]; congruence].
    + destruct (od_delitem key l) as [l'|]; simpl.
      * split; [discriminate|]. intros [_ Hout]. apply IH in Hout.
        discriminate.
      * split; [|reflexivity]. intros _. split; [congruence|].
        apply IH. reflexivity.
Qed.

Lemma filter_absent_key key (ks : list K) :
  key ∉ ks -> filter (fun k => k ≠ key) ks = ks.
Proof.
  induction ks as [|k ks IH]; [reflexivity|].
  rewrite not_elem_of_cons. intros [Hne Hout].
  rewrite filter_cons_True by congruence. f_equal. apply IH, Hout.
Qed.

Lemma od_delitem_Some key l l' :
  od_delitem key l = Some l' ->
  NoDup l.*1 ->
  l'.*1 = filter (fun k => k ≠ key) l.*1
  /\ od_lookup key l' = None
  /\ forall key', key' ≠ key -> od_lookup key' l' = od_lookup key' l.
Proof.
  revert l'. induction l as [|[k v] l IH]; intros l'; simpl; [discriminate|].
  intros Hdel Hnd. apply NoDup_cons in Hnd as [Hk Hnd].
  destruct (decide (k = key)) as [->|Hne].
  - injection Hdel as <-. split; [|split].
    + rewrite filter_cons_False by (intros Hn; apply Hn; reflexivity).
      symmetry. apply filter_absent_key, Hk.
    + apply od_lookup_None. exact Hk.
    + intros key' Hne. case_decide; [congruence | reflexivity].
  - destruct (od_delitem key l) as [l0|] eqn:Hl0; [|discriminate].
    simpl in Hdel. injection Hdel as <-.
    destruct (IH l0 eq_refl Hnd) as (Hkeys & Hgone & Hother).
    split; [|split].
    + rewrite filter_cons_True by exact Hne. simpl. f_equal. exact Hkeys.
    + simpl. case_decide; [congruence | exact Hgone].
    + intros key' Hne'. simpl. case_decide; [reflexivity|].
      apply Hother, Hne'.
Qed.

(** X8.  No key occurs twice, and that stays so under any sequence of
    assignments and lookups and under a deletion. *)
Theorem unique_keys_preserved (ops : list (op K V)) key s :
  NoDup (keys (self s)) ->
  NoDup (keys (self (run_ops ops s)))
  /\ NoDup (keys (self (__delitem__ key s).2)).
Proof.
  intros Hnd. split.
  - rewrite run_ops_keys. apply NoDup_first_insertion_order, Hnd.
  - destruct s as [[l df] w]. unfold keys, __delitem__ in *. simpl in *.
    destruct (od_delitem key l) as [l'|] eqn:Hdel; simpl; [|exact Hnd].
    destruct (od_delitem_Some key l l' Hdel Hnd) as (-> & _ & _).
    apply NoDup_filter, Hnd.
Qed.

(** X9.  Deleting a key and looking it up again, with a factory: the
    lookup returns a new value from the factory, and the key is now the last
    one; the other keys keep their order and their values. *)
Theorem delitem_then_getitem (F : factory V W) key s :
  _default_factory (self s) = PyCallable F ->
  NoDup (keys (self s)) ->
  key ∈ keys (self s) ->
  exists s',
    bind (__delitem__ key) (fun _ => __getitem__ key) s
    = (Return (F (world s)).1, s')
    /\ keys (self s') = filter (fun k => k ≠ key) (keys (self s)) ++ [key]
    /\ world s' = (F (world s)).2
    /\ forall key', key' ≠ key ->
         od_lookup key' (items (self s')) = od_lookup key' (items (self s)).
Proof.
  destruct s as [[l df] w]. unfold keys. simpl. intros -> Hnd Hin.
  unfold bind, __delitem__. simpl.
  destruct (od_delitem key l) as [l'|] eqn:Hdel.
  - destruct (od_delitem_Some key l l' Hdel Hnd) as (Hkeys & Hgone & Hother).
    apply od_lookup_None in Hgone.
    rewrite (getitem_absent_run l' F key w Hgone).
    eexists. split; [reflexivity|]. simpl.
    rewrite fmap_app, Hkeys. split; [reflexivity|]. split; [reflexivity|].
    intros key' Hne. rewrite od_lookup_app, Hother by exact Hne.
    destruct (od_lookup key' l); [reflexivity|]. simpl.
    case_decide; [congruence | reflexivity].
  - apply od_delitem_None in Hdel. contradiction.
Qed.

(** ** Deep copy *)

(** X10.  [__deepcopy__] never returns a container, whatever
    [copy.deepcopy] does with the pairs: when that call returns, the class
    is called with two positional arguments and [TypeError] is raised. *)
Theorem deepcopy_raises
    (deepcopy : list (K * V) ->
                M (exception K) (state K V W) (pyobj K V W)) s :
  exists e s',
    __deepcopy__ deepcopy s = (Raise e, s')
    /\ forall o s1,
         deepcopy (items (self s)) s = (Return o, s1) ->
         e = TypeError "expected at most 1 arguments, got 2" /\ s' = s1.
Proof.
  unfold __deepcopy__, construct, bind, gets, __init__. simpl.
  destruct (deepcopy (items (self s)) s) as [[o|e] s1].
  - exists (TypeError "expected at most 1 arguments, got 2"), s1.
    split; [|intros o' s1' [= <- <-]; auto].
    destruct (_default_factory (self s)); reflexivity.
  - exists e, s1. split; [reflexivity | discriminate].
Qed.

End ContainerInvariants.

(** * Further properties of the reporter *)

Section ReporterStreams.

Import Reporter.

Context {E : Type}.

Implicit Types (colored : string -> option string -> option string ->
                          list string -> string).

(** X12.  Without debug mode the error code and the initial error never
    reach the console: [print_warning] and [print_critical] write the main
    line and nothing else ([print_warning] nothing at all in quiet mode). *)
Theorem details_hidden_without_debug colored (message : string) (errcode : Z)
    (initial_error : string) (p : process) :
  DEBUG (cfg p) = false ->
  print_warning (E := E) colored message errcode initial_error p
  = (Return tt,
     {| cfg := cfg p;
        console := console p ++
          if QUIET (cfg p) then []
          else [(stdout, styled colored (ISATTY (cfg p)) "[WARNING] "
                           message (Some "yellow") None [])] |})
  /\ print_critical (E := E) colored message errcode initial_error p
     = (Return tt,
        {| cfg := cfg p;
           console := console p ++
             [(stdout, styled colored (ISATTY (cfg p)) "[CRITICAL] "
                         message (Some "white") (Some "on_red")
                         ["bold"])] |}).
Proof.
  destruct p as [c l]; simpl; intros Hdebug.
  rewrite print_warning_run, print_critical_run, Hdebug. split; reflexivity.
Qed.

Lemma stderr_in_detail_lines (errcode : Z) (initial_error text : string) :
  (stderr, text) ∈ detail_lines errcode initial_error ->
  text = initial_error /\ initial_error ≠ "".
Proof.
  unfold detail_lines. rewrite elem_of_app. intros [Hin|Hin].
  - destruct (bool_decide (errcode = 0));
      [apply elem_of_nil in Hin; destruct Hin|].
    apply list_elem_of_singleton in Hin. discriminate.
  - destruct (bool_decide (initial_error = "")) eqn:Hempty;
      [apply elem_of_nil in Hin; destruct Hin|].
    apply list_elem_of_singleton in Hin. injection Hin as ->.
    split; [reflexivity|]. apply bool_decide_eq_false in Hempty. exact Hempty.
Qed.

(** X13.  The reporters only add lines at the end of what is on the
    console, and the only line that ever goes to the standard error is the
    initial error, in debug mode and when it is not empty; [print_info] and
    [print_secret] write nothing there. *)
Theorem stderr_carries_only_initial_error colored (message : string)
    (errcode : Z) (initial_error secret : string) (p : process) :
  (exists added,
     console (print_warning (E := E) colored message errcode
                initial_error p).2 = console p ++ added
     /\ forall text, (stderr, text) ∈ added ->
          text = initial_error /\ text ≠ "" /\ DEBUG (cfg p) = true)
  /\ (exists added,
        console (print_critical (E := E) colored message errcode
                   initial_error p).2 = console p ++ added
        /\ forall text, (stderr, text) ∈ added ->
             text = initial_error /\ text ≠ "" /\ DEBUG (cfg p) = true)
  /\ (exists added,
        console (print_info (E := E) colored message p).2
        = console p ++ added
        /\ forall text, (stderr, text) ∉ added)
  /\ (exists added,
        console (print_secret (E := E) colored message secret p).2
        = console p ++ added
        /\ forall text, (stderr, text) ∉ added).
Proof.
  destruct p as [c l].
  rewrite print_info_run, print_warning_run, print_critical_run,
    print_secret_run. simpl.
  assert (forall text main,
            (stderr, text) ∈ (if DEBUG c
                              then detail_lines errcode initial_error
                              else []) ++ [(stdout, main)] ->
            text = initial_error /\ text ≠ "" /\ DEBUG c = true) as Hdetails.
  { intros text main. rewrite elem_of_app, list_elem_of_singleton.
    intros [Hin|Hin]; [|discriminate].
    destruct (DEBUG c); [|apply elem_of_nil in Hin; destruct Hin].
    apply stderr_in_detail_lines in Hin as [-> Hne]. auto. }
  split; [|split; [|split]].
  - eexists. split; [reflexivity|]. intros text.
    destruct (QUIET c); [intros Hin; apply elem_of_nil in Hin; destruct Hin|].
    apply Hdetails.
  - eexists. split; [reflexivity|]. intros text. apply Hdetails.
  - eexists. split; [reflexivity|]. intros text.
    destruct (QUIET c); [apply not_elem_of_nil|].
    rewrite list_elem_of_singleton. discriminate.
  - eexists. split; [reflexivity|]. intros text.
    rewrite list_elem_of_singleton. discriminate.
Qed.

(** X14.  Off a terminal nothing is coloured: the four reporters write
    the same lines whatever [termcolor.colored] would produce. *)
Theorem plain_off_terminal colored colored' (message : string) (errcode : Z)
    (initial_error secret : string) (p : process) :
  ISATTY (cfg p) = false ->
  print_info (E := E) colored message p = print_info colored' message p
  /\ print_warning (E := E) colored message errcode initial_error p
     = print_warning colored' message errcode initial_error p
  /\ print_critical (E := E) colored message errcode initial_error p
     = print_critical colored' message errcode initial_error p
  /\ print_secret (E := E) colored message secret p
     = print_secret colored' message secret p
  /\ console (print_secret (E := E) colored message secret p).2
     = console p ++ [(stdout, "[SECRET] " +:+ message +:+ " " +:+ secret)].
Proof.
  destruct p as [c l]; simpl; intros Htty.
  rewrite !print_info_run, !print_warning_run, !print_critical_run,
    !print_secret_run, Htty.
  repeat split.
Qed.

(** X15.  [print_secret] reads neither the quiet flag nor the debug flag:
    it always writes one line, the same whatever these flags are. *)
Theorem print_secret_ignores_quiet_and_debug colored (message secret : string)
    (p p' : process) :
  ISATTY (cfg p) = ISATTY (cfg p') ->
  console p = console p' ->
  console (print_secret (E := E) colored message secret p).2
  = console (print_secret (E := E) colored message secret p').2
  /\ length (console (print_secret (E := E) colored message secret p).2)
     = S (length (console p)).
Proof.
  destruct p as [c l], p' as [c' l']; simpl; intros Htty <-.
  rewrite !print_secret_run, Htty. simpl.
  rewrite length_app. simpl. split; [reflexivity | lia].
Qed.

End ReporterStreams.

(** * Further properties of the structured error *)

Section USBRipErrorMore.

Import USBRipError.

(** The mapping of any instance, given the mapping supplied. *)
Lemma errors_init (message : string) (supplied : option (gmap string value)) :
  errors (USBRipError.__init__ message supplied)
  = setdefault "initial_error" (VStr "")
      (setdefault "errcode" (VInt 0) (default ∅ supplied)).
Proof.
  unfold USBRipError.__init__. simpl. rewrite falsy_supplied. reflexivity.
Qed.

(** X16.  Defaulting is idempotent: an error built from the mapping of
    another error has the same mapping. *)
Theorem errors_defaulting_idempotent (message message' : string)
    (supplied : option (gmap string value)) :
  errors (USBRipError.__init__ message'
            (Some (errors (USBRipError.__init__ message supplied))))
  = errors (USBRipError.__init__ message supplied).
Proof.
  rewrite (errors_init message'), (errors_init message supplied). simpl.
  apply map_eq. intros key. rewrite !lookup_setdefault.
  repeat case_decide; subst; simpl; try congruence; try reflexivity.
Qed.

End USBRipErrorMore.

(** * The structured error and the mapping it is given *)

Section ErrorStoreFacts.

Import USBRipError.

Context {E : Type}.

Implicit Types (h : gmap positive (gmap string value)).

(** X17.  A mapping that is not empty is not copied: the error holds the
    very mapping of the caller, which is filled in place, so that the caller
    sees [errcode] and [initial_error] in it afterwards.  Its content is the
    supplied one with the two defaults filled in; no other mapping
    changes. *)
Theorem init_shares_supplied_mapping (message : string) (l : positive)
    (d : gmap string value) h :
  h !! l = Some d ->
  d ≠ ∅ ->
  ErrorStore.__init__ (E := E) message (Some l) h
  = (Return {| ErrorStore.message := message; ErrorStore.errors := l |},
     <[l := errors (USBRipError.__init__ message (Some d))]> h).
Proof.
  intros Hl Hne. rewrite errors_init.
  unfold ErrorStore.__init__, ErrorStore.setdefault, ErrorStore.or_new_dict,
    bind, gets, modify, ret.
  rewrite Hl. simpl. rewrite bool_decide_eq_false_2 by exact Hne. simpl.
  f_equal.
  apply map_eq. intros i. rewrite !lookup_alter, lookup_insert.
  repeat case_decide; subst; try congruence; rewrite ?Hl; reflexivity.
Qed.

(** X18.  With no mapping, or with an empty one, the error gets a new
    mapping of its own, [{errcode: 0, initial_error: ''}]; the mappings that
    were there, the empty one of the caller included, stay as they are. *)
Theorem init_allocates_when_empty (message : string)
    (supplied : option positive) h :
  supplied = None \/ (exists l, supplied = Some l /\ h !! l = Some ∅) ->
  exists l',
    ErrorStore.__init__ (E := E) message supplied h
    = (Return {| ErrorStore.message := message; ErrorStore.errors := l' |},
       <[l' := {[ "errcode" := VInt 0; "initial_error" := VStr "" ]}]> h)
    /\ h !! l' = None
    /\ forall l, is_Some (h !! l) ->
         <[l' := {[ "errcode" := VInt 0; "initial_error" := VStr "" ]}]> h !! l
         = h !! l.
Proof.
  intros Hempty.
  assert (ErrorStore.or_new_dict (E := E) supplied h
          = ErrorStore.new_dict h) as Hnew.
  { destruct Hempty as [->|(l & -> & Hl)]; [reflexivity|].
    unfold ErrorStore.or_new_dict, bind, gets. rewrite Hl. reflexivity. }
  assert (h !! fresh (dom h) = None) as Hfresh
    by (apply not_elem_of_dom, is_fresh).
  exists (fresh (dom h)). split; [|split; [exact Hfresh|]].
  - unfold ErrorStore.__init__. unfold bind at 1. rewrite Hnew.
    unfold ErrorStore.setdefault, ErrorStore.new_dict, bind, gets, modify, ret.
    simpl. f_equal.
    apply map_eq. intros i. rewrite !lookup_alter, !lookup_insert.
    destruct (decide (fresh (dom h) = i)) as [<-|Hi];
      [rewrite ?decide_True by reflexivity
      |rewrite ?decide_False by exact Hi; reflexivity].
    simpl. f_equal.
  - intros l [x Hx]. rewrite lookup_insert_ne; [reflexivity|].
    intros <-. congruence.
Qed.

End ErrorStoreFacts.

(** * Properties of [os_makedirs] *)

Section MakedirsFacts.

Import USBRipError Makedirs.

Context {FS : Type}.
Variable makedirs : string -> FS -> outcome os_error unit * FS.
Variable isdir : string -> FS -> bool.

Lemma errors_of_initial_error (message text : string) :
  errors (USBRipError.__init__ message
            (Some {[ "initial_error" := VStr text ]}))
  = {[ "errcode" := VInt 0; "initial_error" := VStr text ]}.
Proof.
  rewrite errors_init. simpl. unfold setdefault.
  rewrite lookup_singleton_ne by done.
  rewrite lookup_insert_ne, lookup_singleton_eq by done. reflexivity.
Qed.

(** X19.  Whenever [os_makedirs] raises an error of its own,
    [os.makedirs] has failed, with a permission error or with another
    [OSError] while the path is not a directory, and the error raised carries
    exactly the error code [0] and, as initial error, the text of the failure
    of [os.makedirs]. *)
Theorem os_makedirs_error_details (dirname : string) (fs fs' : FS)
    (err : USBRipError) :
  os_makedirs makedirs isdir dirname fs = (Raise (Wrapped err), fs') ->
  exists text,
    (makedirs dirname fs = (Raise (PermissionError text), fs')
     \/ (makedirs dirname fs = (Raise (OSError text), fs')
         /\ isdir dirname fs' = false))
    /\ errors err = {[ "errcode" := VInt 0; "initial_error" := VStr text ]}.
Proof.
  unfold os_makedirs.
  destruct (makedirs dirname fs) as [[[]|[text|text|text]] fs1];
    [discriminate| | |discriminate].
  - intros [= <- <-]. exists text. split; [left; reflexivity|].
    apply errors_of_initial_error.
  - destruct (isdir dirname fs1) eqn:Hdir; [discriminate|].
    intros [= <- <-]. exists text.
    split; [right; split; [reflexivity|exact Hdir]|].
    apply errors_of_initial_error.
Qed.

(** X20.  [os_makedirs] returns normally in two cases only: [os.makedirs]
    succeeded, or it failed with an [OSError] other than a permission error
    while the path is a directory.  The file system is as [os.makedirs] left
    it. *)
Theorem os_makedirs_returns (dirname : string) (fs fs' : FS) :
  os_makedirs makedirs isdir dirname fs = (Return tt, fs')
  <-> makedirs dirname fs = (Return tt, fs')
      \/ exists text, makedirs dirname fs = (Raise (OSError text), fs')
                      /\ isdir dirname fs' = true.
Proof.
  unfold os_makedirs.
  destruct (makedirs dirname fs) as [[[]|[text|text|text]] fs1].
  - split; [intros [= <-]; left; reflexivity|].
    intros [[= <-]|(t & [=] & _)]. reflexivity.
  - split; [discriminate|]. intros [[=]|(t & [=] & _)].
  - destruct (isdir dirname fs1) eqn:Hdir.
    + split; [intros [= <-]; right; exists text; auto|].
      intros [[=]|(t & [= <- <-] & _)]. reflexivity.
    + split; [discriminate|].
      intros [[=]|(t & [= <- <-] & Hdir')]. congruence.
  - split; [discriminate|]. intros [[=]|(t & [=] & _)].
Qed.

End MakedirsFacts.

(** * Properties of [time_it_if_debug] *)

Section DebugFacts.

Import Reporter Debug.

Context {F E : Type}.

(** X21.  The condition handed to [time_it_if_debug] plays no part: the
    debug flag is read when the object is made, and that value decides from
    then on, whatever the flag becomes.  With the flag off the function comes
    back as it is and the decorator is not called; with the flag on the
    result is the decorator's. *)
Theorem time_it_if_debug_latches_flag {C C' : Type} (condition : C)
    (condition' : C') (decorator : F -> M E process F) (p : process) :
  Debug.__init__ condition decorator p = Debug.__init__ condition' decorator p
  /\ exists obj,
       Debug.__init__ condition decorator p = (Return obj, p)
       /\ forall func p',
            __call__ obj func p'
            = if DEBUG (cfg p) then decorator func p' else (Return func, p').
Proof.
  split; [reflexivity|].
  unfold Debug.__init__, bind, gets, ret. simpl. eexists. split; [reflexivity|].
  intros func p'. unfold __call__. simpl. destruct (DEBUG (cfg p)); reflexivity.
Qed.

End DebugFacts.

(** * Properties of [is_correct] *)

Section PasswordFacts.

Import Password.

Variables unicode_islower unicode_isupper unicode_isdigit : N -> bool.

Local Open Scope N_scope.

Lemma elem_of_code_points (a b : nat) (c : N) :
  c ∈ code_points a b <-> (a <= N.to_nat c < S b)%nat.
Proof.
  unfold code_points. rewrite list_elem_of_fmap. split.
  - intros (n & -> & Hn). apply elem_of_seq in Hn. rewrite Nat2N.id. lia.
  - intros Hc. exists (N.to_nat c). split; [symmetry; apply N2Nat.id|].
    apply elem_of_seq. lia.
Qed.

(** The printable characters are the ASCII characters from the space to
    the tilde and the five control characters from the tabulation to the
    carriage return. *)
Lemma elem_of_printable (c : N) :
  c ∈ printable <-> 9 <= c <= 13 \/ 32 <= c <= 126.
Proof.
  unfold printable, digits, ascii_lowercase, ascii_uppercase, punctuation,
    whitespace.
  repeat rewrite elem_of_app. repeat rewrite elem_of_code_points.
  repeat rewrite elem_of_cons. rewrite elem_of_nil. lia.
Qed.

Lemma existsb_false_iff {A} (f : A -> bool) (l : list A) :
  existsb f l = false <-> forall x, x ∈ l -> f x = false.
Proof.
  induction l as [|a l IH]; simpl.
  - split; [intros _ x Hx; apply elem_of_nil in Hx; destruct Hx | reflexivity].
  - rewrite orb_false_iff, IH. split.
    + intros [Ha Hl] x Hx. apply elem_of_cons in Hx as [->|Hx]; auto.
    + intros Hall. split; [apply Hall; left|].
      intros x Hx. apply Hall. right. exact Hx.
Qed.

Lemma existsb_true_iff {A} (f : A -> bool) (l : list A) :
  existsb f l = true <-> exists x, x ∈ l /\ f x = true.
Proof.
  rewrite existsb_exists. split; intros (x & Hx & Hf); exists x;
    (split; [apply list_elem_of_In, Hx | exact Hf]).
Qed.

Lemma ascii_class (a b c : N) (beyond : N -> bool) :
  c <= 126 ->
  (if c <? 128 then (a <=? c) && (c <=? b) else beyond c) = true
  <-> a <= c <= b.
Proof.
  intros Hc. destruct (N.ltb_spec c 128); [|lia].
  rewrite andb_true_iff, !N.leb_le. reflexivity.
Qed.

(** When [is_correct] answers [True]. *)
Lemma is_correct_true (password : list N) :
  is_correct unicode_islower unicode_isupper unicode_isdigit password = true
  <-> (8 <= length password)%nat
      /\ (exists c, c ∈ password /\ 97 <= c <= 122)
      /\ (exists c, c ∈ password /\ 65 <= c <= 90)
      /\ (exists c, c ∈ password /\ 48 <= c <= 57)
      /\ (forall c, c ∈ password -> 9 <= c <= 13 \/ 32 <= c <= 126).
Proof.
  unfold is_correct.
  match goal with |- (if ?b then false else true) = true <-> _ =>
    destruct b eqn:Hb end.
  - split; [discriminate|]. intros (Hlen & Hlow & Hup & Hdig & Hall).
    exfalso. rewrite !orb_true_iff, !negb_true_iff in Hb.
    destruct Hb as [[[[Hb|Hb]|Hb]|Hb]|Hb].
    + apply Nat.ltb_lt in Hb. lia.
    + destruct Hlow as (c & Hc & Hr). rewrite existsb_false_iff in Hb.
      specialize (Hb c Hc). unfold islower in Hb.
      rewrite (proj2 (ascii_class 97 122 c unicode_islower ltac:(lia)) Hr) in Hb.
      discriminate.
    + destruct Hup as (c & Hc & Hr). rewrite existsb_false_iff in Hb.
      specialize (Hb c Hc). unfold isupper in Hb.
      rewrite (proj2 (ascii_class 65 90 c unicode_isupper ltac:(lia)) Hr) in Hb.
      discriminate.
    + destruct Hdig as (c & Hc & Hr). rewrite existsb_false_iff in Hb.
      specialize (Hb c Hc). unfold isdigit in Hb.
      rewrite (proj2 (ascii_class 48 57 c unicode_isdigit ltac:(lia)) Hr) in Hb.
      discriminate.
    + apply existsb_true_iff in Hb as (c & Hc & Hn).
      apply negb_true_iff, bool_decide_eq_false in Hn.
      apply Hn, elem_of_printable, Hall, Hc.
  - split; [intros _|reflexivity].
    rewrite !orb_false_iff, !negb_false_iff in Hb.
    destruct Hb as ((((Hlen & Hlow) & Hup) & Hdig) & Hall).
    rewrite existsb_false_iff in Hall.
    assert (forall c, c ∈ password -> 9 <= c <= 13 \/ 32 <= c <= 126) as Hpr.
    { intros c Hc. apply elem_of_printable. specialize (Hall c Hc).
      apply negb_false_iff, bool_decide_eq_true in Hall. exact Hall. }
    apply Nat.ltb_ge in Hlen.
    apply existsb_true_iff in Hlow as (c1 & Hc1 & Hlow).
    apply existsb_true_iff in Hup as (c2 & Hc2 & Hup).
    apply existsb_true_iff in Hdig as (c3 & Hc3 & Hdig).
    pose proof (Hpr c1 Hc1). pose proof (Hpr c2 Hc2). pose proof (Hpr c3 Hc3).
    apply ascii_class in Hlow; [|lia].
    apply ascii_class in Hup; [|lia].
    apply ascii_class in Hdig; [|lia].
    repeat split; [exact Hlen|exists c1|exists c2|exists c3|exact Hpr];
      (split; [assumption|lia]).
Qed.

(** X22.  The passwords accepted are those of eight characters or more,
    all of them printable ASCII (space to tilde, or tabulation to carriage
    return), with a letter from a to z, a letter from A to Z and a digit
    from 0 to 9 among them.  How Unicode classifies other characters
    plays no part. *)
Theorem is_correct_iff (password : list N) :
  is_correct unicode_islower unicode_isupper unicode_isdigit password = true
  <-> (8 <= length password)%nat
      /\ (exists c, c ∈ password /\ 97 <= c <= 122)
      /\ (exists c, c ∈ password /\ 65 <= c <= 90)
      /\ (exists c, c ∈ password /\ 48 <= c <= 57)
      /\ (forall c, c ∈ password -> 9 <= c <= 13 \/ 32 <= c <= 126).
Proof. apply is_correct_true. Qed.

(** X23.  A password that is accepted stays accepted when printable
    characters are added before it or after it. *)
Theorem is_correct_extend (password more : list N) :
  is_correct unicode_islower unicode_isupper unicode_isdigit password = true ->
  (forall c, c ∈ more -> c ∈ printable) ->
  is_correct unicode_islower unicode_isupper unicode_isdigit
    (password ++ more) = true
  /\ is_correct unicode_islower unicode_isupper unicode_isdigit
       (more ++ password) = true.
Proof.
  rewrite !is_correct_true. intros (Hlen & Hlow & Hup & Hdig & Hall) Hmore.
  destruct Hlow as (c1 & Hc1 & Hr1), Hup as (c2 & Hc2 & Hr2),
    Hdig as (c3 & Hc3 & Hr3).
  split; (split; [rewrite length_app; lia|]);
    (split; [exists c1; rewrite elem_of_app; auto|]);
    (split; [exists c2; rewrite elem_of_app; auto|]);
    (split; [exists c3; rewrite elem_of_app; auto|]);
    intros c Hc; apply elem_of_app in Hc as [Hc|Hc]; auto;
    apply elem_of_printable, Hmore, Hc.
Qed.

(** X24.  The order of the characters does not matter: two passwords made
    of the same characters, each as many times, get the same answer. *)
Theorem is_correct_permutation (password password' : list N) :
  password ≡ₚ password' ->
  is_correct unicode_islower unicode_isupper unicode_isdigit password
  = is_correct unicode_islower unicode_isupper unicode_isdigit password'.
Proof.
  intros Hperm.
  assert (forall p q : list N, p ≡ₚ q ->
            is_correct unicode_islower unicode_isupper unicode_isdigit p = true ->
            is_correct unicode_islower unicode_isupper unicode_isdigit q = true)
    as Hmono.
  { intros p q Hpq. rewrite !is_correct_true.
    intros (Hlen & Hlow & Hup & Hdig & Hall).
    rewrite <- Hpq. split; [exact Hlen|].
    split; [destruct Hlow as (c & Hc & Hr); exists c; rewrite <- Hpq; auto|].
    split; [destruct Hup as (c & Hc & Hr); exists c; rewrite <- Hpq; auto|].
    split; [destruct Hdig as (c & Hc & Hr); exists c; rewrite <- Hpq; auto|].
    intros c Hc. apply Hall. rewrite Hpq. exact Hc. }
  destruct (is_correct _ _ _ password) eqn:Hp.
  - symmetry. apply (Hmono password password' Hperm Hp).
  - destruct (is_correct _ _ _ password') eqn:Hq; [|reflexivity].
    symmetry in Hperm. rewrite (Hmono password' password Hperm Hq) in Hp.
    discriminate.
Qed.

End PasswordFacts.

(** * Closed instances of the further properties *)

Section MoreInstances.

Import Reporter USBRipError Container.

Local Open Scope py_scope.

(** Pairs with a key given twice, and the container made of them. *)
Lemma init_returns_well_formed_witness :
  __init__ [PyMapping [("alice", ["login"]); ("bob", []);
                       ("alice", ["logout"])]]
    (PyCallable list_factory) []
  = Return {| items := [("alice", ["logout"]); ("bob", [])];
              _default_factory := PyCallable list_factory |}
  /\ NoDup ["alice"; "bob"].
Proof.
  split; [reflexivity|].
  exact (proj2 (proj2 (proj2
    (init_returns_well_formed
       [PyMapping [("alice", ["login"]); ("bob", []); ("alice", ["logout"])]]
       (PyCallable list_factory) []
       {| items := [("alice", ["logout"]); ("bob", [])];
          _default_factory := PyCallable list_factory |}
       eq_refl)))).
Defined.

Lemma init_first_position_last_value_witness :
  od_lookup "alice"
    [("alice", ["logout"]); ("bob", ([] : list string))]
  = Some ["logout"].
Proof.
  exact (proj2
    (init_first_position_last_value (W := unit) PyNone
       [("alice", ["login"]); ("bob", []); ("alice", ["logout"])] []
       {| items := [("alice", ["logout"]); ("bob", [])];
          _default_factory := PyNone |}
       eq_refl) "alice").
Defined.

Lemma getitem_twice_witness :
  __getitem__ "bob"
    {| self := {| items := [("alice", ["login"]); ("bob", [])];
                  _default_factory := PyCallable list_factory |};
       world := tt |}
  = (Return [],
     {| self := {| items := [("alice", ["login"]); ("bob", [])];
                   _default_factory := PyCallable list_factory |};
        world := tt |}).
Proof.
  exact (getitem_twice "bob" []
           {| self := events_per_user; world := tt |}
           {| self := {| items := [("alice", ["login"]); ("bob", [])];
                         _default_factory := PyCallable list_factory |};
              world := tt |}
           eq_refl).
Defined.

Lemma getitem_keeps_bindings_witness :
  od_lookup "alice"
    (items (self (__getitem__ "bob"
                    {| self := events_per_user; world := tt |}).2))
  = Some ["login"].
Proof.
  exact (getitem_keeps_bindings "bob" "alice" ["login"]
           {| self := events_per_user; world := tt |} eq_refl).
Defined.

Lemma unique_keys_preserved_witness :
  NoDup (keys (self (run_ops [Get_ "bob"; Set_ "alice" []; Get_ "bob"]
                       {| self := events_per_user; world := tt |})))
  /\ NoDup (keys (self (__delitem__ "alice"
                          {| self := events_per_user; world := tt |}).2)).
Proof.
  exact (unique_keys_preserved [Get_ "bob"; Set_ "alice" []; Get_ "bob"]
           "alice" {| self := events_per_user; world := tt |}
           ltac:(apply (bool_decide_unpack _); vm_compute; exact I)).
Defined.

Lemma delitem_then_getitem_witness :
  exists s',
    bind (__delitem__ "alice") (fun _ => __getitem__ "alice")
      {| self := {| items := [("alice", ["login"]); ("bob", [])];
                    _default_factory := PyCallable list_factory |};
         world := tt |}
    = (Return [], s')
    /\ keys (self s') = ["bob"; "alice"]
    /\ world s' = tt
    /\ forall key', key' ≠ "alice" ->
         od_lookup key' (items (self s'))
         = od_lookup key' [("alice", ["login"]); ("bob", [])].
Proof.
  exact (delitem_then_getitem list_factory "alice"
           {| self := {| items := [("alice", ["login"]); ("bob", [])];
                         _default_factory := PyCallable list_factory |};
              world := tt |}
           eq_refl
           ltac:(apply (bool_decide_unpack _); vm_compute; exact I)
           ltac:(apply (bool_decide_unpack _); vm_compute; exact I)).
Defined.

Lemma round_trip_without_factory_witness :
  round_trip {| self := events_no_factory; world := tt |}
  = (Return events_no_factory, {| self := events_no_factory; world := tt |}).
Proof.
  exact (round_trip_without_factory events_no_factory tt eq_refl
           ltac:(apply (bool_decide_unpack _); vm_compute; exact I)).
Defined.

Lemma details_hidden_without_debug_witness :
  print_critical (E := unit) ansi_colored "x" 7 "disk full"
    {| cfg := {| QUIET := false; DEBUG := false; ISATTY := false |};
       console := [] |}
  = (Return tt,
     {| cfg := {| QUIET := false; DEBUG := false; ISATTY := false |};
        console := [(stdout, "[CRITICAL] x")] |}).
Proof.
  exact (proj2 (details_hidden_without_debug ansi_colored "x" 7 "disk full"
                  {| cfg := {| QUIET := false; DEBUG := false;
                               ISATTY := false |};
                     console := [] |} eq_refl)).
Defined.

Lemma plain_off_terminal_witness :
  print_secret (E := unit) ansi_colored "password:" "s3cret" debug_process
  = print_secret (fun text _ _ _ => text) "password:" "s3cret" debug_process.
Proof.
  exact (proj1 (proj2 (proj2 (proj2
    (plain_off_terminal ansi_colored (fun text _ _ _ => text) "password:" 7
       "disk full" "s3cret" debug_process eq_refl))))).
Defined.

Lemma print_secret_ignores_quiet_and_debug_witness :
  console (print_secret (E := unit) ansi_colored "password:" "s3cret"
             debug_process).2
  = console (print_secret (E := unit) ansi_colored "password:" "s3cret"
               quiet_debug_process).2
  /\ length (console (print_secret (E := unit) ansi_colored "password:"
                        "s3cret" debug_process).2)
     = 1%nat.
Proof.
  exact (print_secret_ignores_quiet_and_debug ansi_colored "password:"
           "s3cret" debug_process quiet_debug_process eq_refl eq_refl).
Defined.

(** A caller's mapping [{errcode: 5}] at reference 1. *)
Lemma init_shares_supplied_mapping_witness :
  ErrorStore.__init__ (E := unit) "Permission denied" (Some 1%positive)
    {[ 1%positive := {[ "errcode" := VInt 5 ]} ]}
  = (Return {| ErrorStore.message := "Permission denied";
               ErrorStore.errors := 1%positive |},
     <[ 1%positive := {[ "errcode" := VInt 5; "initial_error" := VStr "" ]} ]>
       {[ 1%positive := {[ "errcode" := VInt 5 ]} ]}).
Proof.
  exact (init_shares_supplied_mapping "Permission denied" 1%positive
           {[ "errcode" := VInt 5 ]}
           {[ 1%positive := {[ "errcode" := VInt 5 ]} ]}
           eq_refl
           ltac:(apply (bool_decide_unpack _); vm_compute; exact I)).
Defined.

(** A caller's empty mapping at reference 1. *)
Lemma init_allocates_when_empty_witness :
  exists l',
    ErrorStore.__init__ (E := unit) "Permission denied" (Some 1%positive)
      {[ 1%positive := ∅ ]}
    = (Return {| ErrorStore.message := "Permission denied";
                 ErrorStore.errors := l' |},
       <[l' := {[ "errcode" := VInt 0; "initial_error" := VStr "" ]}]>
         {[ 1%positive := ∅ ]})
    /\ ({[ 1%positive := ∅ ]} : gmap positive (gmap string value)) !! l'
       = None
    /\ forall l,
         is_Some (({[ 1%positive := ∅ ]}
                   : gmap positive (gmap string value)) !! l) ->
         <[l' := {[ "errcode" := VInt 0; "initial_error" := VStr "" ]}]>
           ({[ 1%positive := ∅ ]} : gmap positive (gmap string value)) !! l
         = ({[ 1%positive := ∅ ]} : gmap positive (gmap string value)) !! l.
Proof.
  exact (init_allocates_when_empty "Permission denied" (Some 1%positive)
           {[ 1%positive := ∅ ]}
           (or_intror (ex_intro _ 1%positive (conj eq_refl eq_refl)))).
Defined.

(** A file system on which [os.makedirs] is refused. *)
Lemma os_makedirs_error_details_witness :
  exists text,
    errors (USBRipError.__init__ "Permission denied: '/var/opt/usbrip'"
              (Some {[ "initial_error"
                       := VStr "[Errno 13] Permission denied" ]}))
    = {[ "errcode" := VInt 0; "initial_error" := VStr text ]}.
Proof.
  destruct (os_makedirs_error_details
              (fun _ fs =>
                 (Raise (Makedirs.PermissionError
                           "[Errno 13] Permission denied"), fs))
              (fun _ _ => false) "/var/opt/usbrip" tt tt
              (USBRipError.__init__ "Permission denied: '/var/opt/usbrip'"
                 (Some {[ "initial_error"
                          := VStr "[Errno 13] Permission denied" ]}))
              eq_refl) as (text & _ & Herrors).
  exists text. exact Herrors.
Defined.

Lemma is_correct_extend_witness :
  Password.is_correct (fun _ => false) (fun _ => false) (fun _ => false)
    (Password.str_of "Passw0rd" ++ Password.str_of "!") = true
  /\ Password.is_correct (fun _ => false) (fun _ => false) (fun _ => false)
       (Password.str_of "!" ++ Password.str_of "Passw0rd") = true.
Proof.
  exact (is_correct_extend (fun _ => false) (fun _ => false) (fun _ => false)
           (Password.str_of "Passw0rd") (Password.str_of "!") eq_refl
           ltac:(intros c Hc; change (c ∈ [33%N]) in Hc;
                 apply list_elem_of_singleton in Hc; subst c;
                 apply (bool_decide_unpack _); vm_compute; exact I)).
Defined.

Lemma is_correct_permutation_witness :
  Password.is_correct (fun _ => false) (fun _ => false) (fun _ => false)
    (reverse (Password.str_of "Passw0rd"))
  = Password.is_correct (fun _ => false) (fun _ => false) (fun _ => false)
      (Password.str_of "Passw0rd").
Proof.
  exact (is_correct_permutation (fun _ => false) (fun _ => false)
           (fun _ => false)
           (reverse (Password.str_of "Passw0rd")) (Password.str_of "Passw0rd")
           (reverse_Permutation _)).
Defined.

End MoreInstances.

(** * The reporters when a write may fail *)

Section ReporterIOFacts.

Import Reporter.

Context {E : Type}.
Variable colored : string -> option string -> option string -> list string -> string.
Variable write_error : process -> stream -> string -> option E.

Abbreviation from_writes :=
  (ReporterIO.keeps_cfg_and_raises_from_writes write_error).

Lemma from_writes_ret {A} (a : A) : from_writes (ret a).
Proof. intros p. split; [reflexivity | exact I]. Qed.

Lemma from_writes_gets {A} (f : process -> A) : from_writes (gets f).
Proof. intros p. split; [reflexivity | exact I]. Qed.

Lemma from_writes_print (text : string) (out : stream) :
  from_writes (ReporterIO.print write_error text out).
Proof.
  intros p. unfold ReporterIO.print.
  destruct (write_error p out text) as [e|] eqn:Hw; simpl.
  - split; [reflexivity|]. exists p, out, text. exact Hw.
  - split; [reflexivity | exact I].
Qed.

Lemma from_writes_bind {A B} (c : M E process A) (k : A -> M E process B) :
  from_writes c -> (forall a, from_writes (k a)) -> from_writes (bind c k).
Proof.
  intros Hc Hk p. unfold bind. destruct (Hc p) as [Hcfg Hraise].
  destruct (c p) as [[a|e] p1]; simpl in *.
  - destruct (Hk a p1) as [Hcfg' Hraise']. split; [congruence | exact Hraise'].
  - split; [exact Hcfg | exact Hraise].
Qed.

Lemma from_writes_if {A} (b : bool) (c1 c2 : M E process A) :
  from_writes c1 -> from_writes c2 -> from_writes (if b then c1 else c2).
Proof. destruct b; auto. Qed.

(** Build the property along the structure of a reporter. *)
Ltac from_writes :=
  repeat first
    [ apply from_writes_ret
    | apply from_writes_gets
    | apply from_writes_print
    | apply from_writes_if
    | apply from_writes_bind; [|intros ?] ].







(** When no write fails the four functions do what those of [Reporter]
    do. *)
Lemma reporters_agree_when_writes_succeed (message : string) (errcode : Z)
    (initial_error secret : string) (p : process) :
  ReporterIO.print_info (E := E) colored (fun _ _ _ => None) message p
  = print_info colored message p
  /\ ReporterIO.print_warning (E := E) colored (fun _ _ _ => None) message
       errcode initial_error p
     = print_warning colored message errcode initial_error p
  /\ ReporterIO.print_critical (E := E) colored (fun _ _ _ => None) message
       errcode initial_error p
     = print_critical colored message errcode initial_error p
  /\ ReporterIO.print_secret (E := E) colored (fun _ _ _ => None) message
       secret p
     = print_secret colored message secret p.
Proof. repeat split. Qed.

End ReporterIOFacts.

(** * Lookups with a factory that may raise *)

Section RaisingFactoryFacts.

Import RaisingFactory.

Context {K V W X : Type} `{EqDecision K}.
Variable is_key_error : X -> bool.

Implicit Types (l : list (K * V)) (key : K) (f : factory V W X)
  (s : state K V W X).

Lemma raising_getitem_present l (df : option (factory V W X)) key (v : V)
    (w : W) :
  Container.od_lookup key l = Some v ->
  __getitem__ is_key_error key
    {| self := {| items := l; _default_factory := df |}; world := w |}
  = (Return v,
     {| self := {| items := l; _default_factory := df |}; world := w |}).
Proof.
  intros Hv. unfold __getitem__, try_except, OrderedDict__getitem__, bind, gets.
  simpl. rewrite Hv. reflexivity.
Qed.

(** A key that is not there: the lookup, call by call. *)
Lemma raising_getitem_absent l (df : option (factory V W X)) key (w : W) :
  key ∉ l.*1 ->
  __getitem__ is_key_error key
    {| self := {| items := l; _default_factory := df |}; world := w |}
  = match df with
    | None =>
        (Raise (Missing key),
         {| self := {| items := l; _default_factory := df |}; world := w |})
    | Some f =>
        match f w with
        | (Return v, w1) =>
            (Return v,
             {| self := {| items := l ++ [(key, v)];
                           _default_factory := df |};
                world := w1 |})
        | (Raise x, w1) =>
            if is_key_error x then
              match f w1 with
              | (Return v, w2) =>
                  (Return v,
                   {| self := {| items := l ++ [(key, v)];
                                 _default_factory := df |};
                      world := w2 |})
              | (Raise x', w2) =>
                  (Raise (FromFactory x'),
                   {| self := {| items := l; _default_factory := df |};
                      world := w2 |})
              end
            else
              (Raise (FromFactory x),
               {| self := {| items := l; _default_factory := df |};
                  world := w1 |})
        end
    end.
Proof.
  intros Hout. pose proof Hout as Hnone. apply od_lookup_None in Hnone.
  unfold __getitem__, try_except, OrderedDict__getitem__, __missing__, call,
    __setitem__, bind, gets, modify, raise, ret.
  simpl. rewrite Hnone. destruct df as [f|]; simpl; [|reflexivity].
  destruct (f w) as [[v|x] w1]; simpl.
  - rewrite od_setitem_absent by exact Hout. reflexivity.
  - destruct (is_key_error x); [|reflexivity].
    destruct (f w1) as [[v|x'] w2]; simpl; [|reflexivity].
    rewrite od_setitem_absent by exact Hout. reflexivity.
Qed.

(** X3.  With a callable factory, a lookup returns exactly when the key is
    there, or the factory returns when called, or the factory raises a
    [KeyError] at its first call and returns at the second; and when the
    lookup returns, the key is bound to the value returned and the factory
    is kept. *)
Theorem getitem_returns_iff_factory_returns f key s :
  _default_factory (self s) = Some f ->
  ((exists v s', __getitem__ is_key_error key s = (Return v, s'))
   <-> key ∈ keys (self s)
       \/ (exists v, (f (world s)).1 = Return v)
       \/ (exists x v, (f (world s)).1 = Raise x /\ is_key_error x = true
                       /\ (f (f (world s)).2).1 = Return v))
  /\ forall v s',
       __getitem__ is_key_error key s = (Return v, s') ->
       Container.od_lookup key (items (self s')) = Some v
       /\ _default_factory (self s') = Some f.
Proof.
  destruct s as [[l df] w]. unfold keys. simpl. intros ->.
  destruct (Container.od_lookup key l) as [v0|] eqn:Hl.
  - rewrite (raising_getitem_present l _ key v0 w Hl). split.
    + split; [intros _; left; eapply od_lookup_Some, Hl | eauto].
    + intros v s' [= <- <-]. simpl. auto.
  - apply od_lookup_None in Hl. rewrite (raising_getitem_absent l _ key w Hl).
    assert (forall v, Container.od_lookup key (l ++ [(key, v)]) = Some v)
      as Hbound.
    { intros v. rewrite od_lookup_app. apply od_lookup_None in Hl.
      rewrite Hl. simpl. case_decide; [reflexivity | congruence]. }
    destruct (f w) as [[v|x] w1] eqn:Hf1; simpl.
    + split; [split; eauto|]. intros v' s' [= <- <-]. simpl. auto.
    + destruct (is_key_error x) eqn:Hx.
      * destruct (f w1) as [[v|x'] w2] eqn:Hf2; simpl.
        -- split; [split; eauto 10|]. intros v' s' [= <- <-]. simpl. auto.
        -- split; [|intros v' s'; discriminate]. split.
           ++ intros (v & s' & Heq). discriminate.
           ++ intros [Hin|[(v & Hv)|(x0 & v & Hx0 & _ & Hv)]];
                [contradiction | discriminate | discriminate].
      * split; [|intros v' s'; discriminate]. split.
        -- intros (v & s' & Heq). discriminate.
        -- intros [Hin|[(v & Hv)|(x0 & v & Hx0 & Hk & Hv)]];
             [contradiction | discriminate | congruence].
Qed.

(** X7.  A lookup that raises found the key missing and leaves the
    container as it was.  Without a factory it raises the [KeyError] of the
    key and nothing changes.  With a factory it raises what the factory
    raised: at the first call when that is not a [KeyError]; when it is one,
    the [except] branch calls the factory a second time, and the lookup
    raises what the second call raises. *)
Theorem getitem_raises_only_from_factory key (e : failure K X) s s' :
  __getitem__ is_key_error key s = (Raise e, s') ->
  (key ∉ keys (self s))
  /\ self s' = self s
  /\ match _default_factory (self s) with
     | None => e = Missing key /\ world s' = world s
     | Some f =>
         exists x,
           e = FromFactory x
           /\ ((f (world s) = (Raise x, world s') /\ is_key_error x = false)
               \/ exists x0,
                    (f (world s)).1 = Raise x0 /\ is_key_error x0 = true
                    /\ f (f (world s)).2 = (Raise x, world s'))
     end.
Proof.
  destruct s as [[l df] w]. unfold keys. simpl.
  destruct (Container.od_lookup key l) as [v0|] eqn:Hl.
  - rewrite (raising_getitem_present l _ key v0 w Hl). discriminate.
  - apply od_lookup_None in Hl. rewrite (raising_getitem_absent l _ key w Hl).
    destruct df as [f|]; [|intros [= <- <-]; auto].
    destruct (f w) as [[v|x] w1] eqn:Hf1; simpl; [discriminate|].
    destruct (is_key_error x) eqn:Hx.
    + destruct (f w1) as [[v|x'] w2] eqn:Hf2; simpl; [discriminate|].
      intros [= <- <-]. simpl. split; [exact Hl|]. split; [reflexivity|].
      exists x'. split; [reflexivity|]. right. exists x. auto.
    + intros [= <- <-]. simpl. split; [exact Hl|]. split; [reflexivity|].
      exists x. split; [reflexivity|]. left. auto.
Qed.

(** With a factory that always returns, the lookup is the one of
    [Container]. *)
Lemma getitem_total_agrees l (f0 : W -> V * W) key (w : W) :
  __getitem__ is_key_error key
    {| self := {| items := l; _default_factory := Some (total f0) |};
       world := w |}
  = match Container.__getitem__ key
            {| Container.self :=
                 {| Container.items := l;
                    Container._default_factory := Container.PyCallable f0 |};
               Container.world := w |} with
    | (Return v, s1) =>
        (Return v,
         {| self := {| items := Container.items (Container.self s1);
                       _default_factory := Some (total f0) |};
            world := Container.world s1 |})
    | (Raise _, s1) =>
        (Raise (Missing key),
         {| self := {| items := Container.items (Container.self s1);
                       _default_factory := Some (total f0) |};
            world := Container.world s1 |})
    end.
Proof.
  destruct (Container.od_lookup key l) as [v0|] eqn:Hl.
  - rewrite (raising_getitem_present l _ key v0 w Hl).
    rewrite (getitem_present _ key v0 w) by exact Hl. reflexivity.
  - apply od_lookup_None in Hl. rewrite (raising_getitem_absent l _ key w Hl).
    rewrite (getitem_absent_run l f0 key w Hl). reflexivity.
Qed.

End RaisingFactoryFacts.

(** * Closed instances: failing writes, raising factories *)

Section FailureInstances.

Import Reporter RaisingFactory.



(** The factory [list], which returns. *)
Lemma getitem_returns_iff_factory_returns_witness :
  exists v s',
    __getitem__ (fun _ : string => true) "bob"
      {| self := {| items := [("alice", ["login"])];
                    _default_factory := Some (total Container.list_factory) |};
         world := tt |}
    = (Return v, s').
Proof.
  exact (proj2 (proj1
    (getitem_returns_iff_factory_returns (fun _ : string => true)
       (total Container.list_factory) "bob"
       {| self := {| items := [("alice", ["login"])];
                     _default_factory := Some (total Container.list_factory) |};
          world := tt |}
       eq_refl))
    (or_intror (or_introl (ex_intro _ [] eq_refl)))).
Defined.

(** A factory that raises [KeyError('boom')]: it is called twice. *)
Lemma getitem_raises_only_from_factory_witness :
  __getitem__ (fun _ : string => true) "bob"
    {| self := {| items := [("alice", ["login"])];
                  _default_factory := Some boom |};
       world := 0%nat |}
  = (Raise (FromFactory "KeyError('boom')"),
     {| self := {| items := [("alice", ["login"])];
                   _default_factory := Some boom |};
        world := 2%nat |})
  /\ exists x,
       FromFactory (K := string) "KeyError('boom')" = FromFactory x
       /\ ((boom 0%nat = (Raise x, 2%nat) /\ true = false)
           \/ exists x0,
                (boom 0%nat).1 = Raise x0 /\ true = true
                /\ boom (boom 0%nat).2 = (Raise x, 2%nat)).
Proof.
  split; [reflexivity|].
  exact (proj2 (proj2
    (getitem_raises_only_from_factory (fun _ : string => true) "bob"
       (FromFactory "KeyError('boom')")
       {| self := {| items := [("alice", ["login"])];
                     _default_factory := Some boom |};
          world := 0%nat |}
       {| self := {| items := [("alice", ["login"])];
                     _default_factory := Some boom |};
          world := 2%nat |}
       eq_refl))).
Defined.

End FailureInstances.
